(** * Food-delivery order service (q1/src/cli.py): model and properties

    The development embeds the data store, the persistence cycle
    ([load_data] / [save_data]) and the [OrderService] operations of
    [cli.py], and proves statements about the order life cycle and the
    delivery-agent pool.

    Modelling conventions.
    - A Python [dict] with string keys is an association list in insertion
      order ([Dict]): assigning to a present key keeps its position,
      assigning to a new key appends, as CPython does.
    - Objects that are reachable through more than one path are kept in
      typed heaps and referred to by address: [DeliveryAgent] and
      [Customer] objects (shared by [users] and [delivery_agents] /
      [customers]) and [MenuItem] objects (shared by a restaurant's menu
      and the order lines built from it).
    - The three JSON documents are the fields of [Disk]; [None] is a file
      that does not exist.  Only documents with the layout [save_data]
      writes are modelled.
    - [datetime] values are integers (microseconds); [timedelta(minutes=m)]
      is [m * 60000000].  The range limit of [datetime] is not modelled.
    - Prices are Python numbers; the model is parametric in their carrier,
      in the [0] that [sum] starts from and in the two operations the code
      applies to them ([+] and [*] by an integer quantity).
    - [strptime] is modelled for the format ["%H:%M"] on ASCII input. *)

From Stdlib Require Import List String Ascii ZArith Lia Bool Arith.
From Stdlib Require Import DecimalString.
Import ListNotations.
Local Open Scope string_scope.
Local Open Scope list_scope.
Local Open Scope Z_scope.

Set Implicit Arguments.

(** ** Insertion-ordered dictionaries *)

Module Dict.

Definition t (V : Type) : Type := list (string * V).

Definition empty {V : Type} : t V := [].

Fixpoint get {V : Type} (d : t V) (k : string) : option V :=
  match d with
  | [] => None
  | (k', v) :: d' => if String.eqb k' k then Some v else get d' k
  end.

Definition mem {V : Type} (d : t V) (k : string) : bool :=
  match get d k with Some _ => true | None => false end.

(** [d[k] = v] *)
Fixpoint set {V : Type} (d : t V) (k : string) (v : V) : t V :=
  match d with
  | [] => [(k, v)]
  | (k', v') :: d' =>
      if String.eqb k' k then (k', v) :: d' else (k', v') :: set d' k v
  end.

(** [del d[k]] (the callers check membership first) *)
Fixpoint remove {V : Type} (d : t V) (k : string) : t V :=
  match d with
  | [] => []
  | (k', v') :: d' =>
      if String.eqb k' k then d' else (k', v') :: remove d' k
  end.

Definition values {V : Type} (d : t V) : list V := map snd d.
Definition keys {V : Type} (d : t V) : list string := map fst d.

End Dict.

(** ** Typed heaps *)

Module Heap.

Definition t (A : Type) : Type := list A.

Definition get {A : Type} (h : t A) (a : nat) : option A := nth_error h a.

Definition alloc {A : Type} (h : t A) (x : A) : t A * nat :=
  (h ++ [x], List.length h).

Fixpoint put {A : Type} (h : t A) (a : nat) (x : A) : t A :=
  match h, a with
  | [], _ => []
  | _ :: h', O => x :: h'
  | y :: h', S a' => y :: put h' a' x
  end.

End Heap.

(** ** Enumerations *)

Inductive OrderStatus :=
| PLACED | PREPARING | READY | IN_TRANSIT | DELIVERED | PICKED_UP | CANCELLED.

Inductive OrderType := DELIVERY | TAKEAWAY.

Inductive UserRole := CUSTOMER | RESTAURANT | DELIVERY_AGENT | MANAGER.

Definition OrderStatus_eqb (a b : OrderStatus) : bool :=
  match a, b with
  | PLACED, PLACED | PREPARING, PREPARING | READY, READY
  | IN_TRANSIT, IN_TRANSIT | DELIVERED, DELIVERED
  | PICKED_UP, PICKED_UP | CANCELLED, CANCELLED => true
  | _, _ => false
  end.

Definition OrderType_eqb (a b : OrderType) : bool :=
  match a, b with
  | DELIVERY, DELIVERY | TAKEAWAY, TAKEAWAY => true
  | _, _ => false
  end.

(** Exceptions raised by the modelled code. *)
Inductive exn :=
| ValueError (msg : string)
| KeyError (key : string)
| AttributeError (attr : string).

(** Truthiness of an optional string ([None] and [""] are falsy). *)
Definition truthy (s : option string) : bool :=
  match s with
  | None => false
  | Some s' => negb (String.eqb s' EmptyString)
  end.

Definition opt_string_eqb (a b : option string) : bool :=
  match a, b with
  | None, None => true
  | Some x, Some y => String.eqb x y
  | _, _ => false
  end.

(** ** Data model *)

Section Model.

(** Carrier of prices, the integer [0] that [sum] starts from, [+] on
    prices and [price * quantity] with an integer quantity. *)
Variable num : Type.
Variable num_zero : num.
Variable num_add : num -> num -> num.
Variable num_scale : num -> Z -> num.

Record User := mkUser {
  user_id : string;
  name : string;
  email : string;
  role : UserRole
}.

Record Customer := mkCustomer {
  c_user_id : string;
  c_name : string;
  c_email : string;
  address : string;
  order_history : list string
}.

(** [is_on_duty] is not set by [DeliveryAgent.__init__]: [None] is an
    object without that attribute. *)
Record DeliveryAgent := mkAgent {
  a_user_id : string;
  a_name : string;
  a_email : string;
  available : bool;
  current_order : option string;
  completed_deliveries : list string;
  is_on_duty : option bool
}.

Record MenuItem := mkMenuItem {
  item_id : string;
  item_name : string;
  description : string;
  price : num;
  prep_time : Z
}.

(** [menu_items] maps an item id to the address of its [MenuItem]. *)
Record Restaurant := mkRestaurant {
  restaurant_id : string;
  r_name : string;
  r_address : string;
  menu_items : Dict.t nat;
  r_orders : list string
}.

(** [menu_item] is a reference to the catalog's object, not a copy. *)
Record OrderItem := mkOrderItem {
  menu_item : nat;
  quantity : Z
}.

(** Values of [Order.estimated_delivery_time]: [None], a [datetime], or
    the string that [update_estimated_delivery_time] stores. *)
Inductive Estimate :=
| NoEstimate
| EstimateAt (t : Z)
| EstimateText (s : string).

Record Order := mkOrder {
  order_id : string;
  customer_id : string;
  o_restaurant_id : string;
  items : list OrderItem;
  order_type : OrderType;
  status : OrderStatus;
  delivery_agent_id : option string;
  placed_time : Z;
  estimated_ready_time : Z;
  estimated_delivery_time : Estimate
}.

(** What [users] holds under a key. *)
Inductive URef :=
| UCust (a : nat)
| UAgent (a : nat)
| UPlain (u : User).

(** *** The JSON documents *)

Inductive UserData :=
| CustomerData (nm em addr : string) (hist : list string)
| AgentData (nm em : string) (avail : bool) (cur : option string)
    (done : list string)
| OtherData (nm em : string) (r : UserRole).

Record ItemData := mkItemData {
  id_name : string;
  id_description : string;
  id_price : num;
  id_prep_time : Z
}.

Record RestaurantData := mkRestaurantData {
  rd_name : string;
  rd_address : string;
  rd_menu_items : Dict.t ItemData;
  rd_orders : list string
}.

Record OrderData := mkOrderData {
  od_customer_id : string;
  od_restaurant_id : string;
  od_status : OrderStatus;
  od_order_type : OrderType;
  od_delivery_agent_id : option string;
  od_placed_time : Z;
  od_estimated_ready_time : Z;
  od_estimated_delivery_time : option Z;
  od_items : list (string * Z)
}.

(** *** The data store: the process's objects and the files *)

Record DataStore := mkStore {
  agent_heap : Heap.t DeliveryAgent;
  cust_heap : Heap.t Customer;
  item_heap : Heap.t MenuItem;
  users : Dict.t URef;
  customers : Dict.t nat;
  delivery_agents : Dict.t nat;
  restaurants : Dict.t Restaurant;
  orders : Dict.t Order;
  users_json : option (Dict.t UserData);
  restaurants_json : option (Dict.t RestaurantData);
  orders_json : option (Dict.t OrderData)
}.

(** ** Field updates *)

Definition agent_with (a : DeliveryAgent) (av : bool) (cur : option string)
    (done : list string) : DeliveryAgent :=
  mkAgent (a_user_id a) (a_name a) (a_email a) av cur done (is_on_duty a).

Definition agent_with_duty (a : DeliveryAgent) (d : option bool)
  : DeliveryAgent :=
  mkAgent (a_user_id a) (a_name a) (a_email a) (available a)
    (current_order a) (completed_deliveries a) d.

Definition customer_with_history (c : Customer) (h : list string)
  : Customer :=
  mkCustomer (c_user_id c) (c_name c) (c_email c) (address c) h.

Definition item_with_price (m : MenuItem) (p : num) : MenuItem :=
  mkMenuItem (item_id m) (item_name m) (description m) p (prep_time m).

Definition restaurant_with_menu (r : Restaurant) (m : Dict.t nat)
  : Restaurant :=
  mkRestaurant (restaurant_id r) (r_name r) (r_address r) m (r_orders r).

Definition restaurant_with_orders (r : Restaurant) (os : list string)
  : Restaurant :=
  mkRestaurant (restaurant_id r) (r_name r) (r_address r) (menu_items r) os.

Definition order_with_status (o : Order) (s : OrderStatus) : Order :=
  mkOrder (order_id o) (customer_id o) (o_restaurant_id o) (items o)
    (order_type o) s (delivery_agent_id o) (placed_time o)
    (estimated_ready_time o) (estimated_delivery_time o).

Definition order_with_agent (o : Order) (a : option string) : Order :=
  mkOrder (order_id o) (customer_id o) (o_restaurant_id o) (items o)
    (order_type o) (status o) a (placed_time o)
    (estimated_ready_time o) (estimated_delivery_time o).

Definition order_with_estimate (o : Order) (e : Estimate) : Order :=
  mkOrder (order_id o) (customer_id o) (o_restaurant_id o) (items o)
    (order_type o) (status o) (delivery_agent_id o) (placed_time o)
    (estimated_ready_time o) e.

Definition store_with_agent_heap (st : DataStore) (h : Heap.t DeliveryAgent)
  : DataStore :=
  mkStore h (cust_heap st) (item_heap st) (users st) (customers st)
    (delivery_agents st) (restaurants st) (orders st) (users_json st)
    (restaurants_json st) (orders_json st).

Definition store_with_cust_heap (st : DataStore) (h : Heap.t Customer)
  : DataStore :=
  mkStore (agent_heap st) h (item_heap st) (users st) (customers st)
    (delivery_agents st) (restaurants st) (orders st) (users_json st)
    (restaurants_json st) (orders_json st).

Definition store_with_item_heap (st : DataStore) (h : Heap.t MenuItem)
  : DataStore :=
  mkStore (agent_heap st) (cust_heap st) h (users st) (customers st)
    (delivery_agents st) (restaurants st) (orders st) (users_json st)
    (restaurants_json st) (orders_json st).

Definition store_with_users (st : DataStore) (d : Dict.t URef) : DataStore :=
  mkStore (agent_heap st) (cust_heap st) (item_heap st) d (customers st)
    (delivery_agents st) (restaurants st) (orders st) (users_json st)
    (restaurants_json st) (orders_json st).

Definition store_with_customers (st : DataStore) (d : Dict.t nat)
  : DataStore :=
  mkStore (agent_heap st) (cust_heap st) (item_heap st) (users st) d
    (delivery_agents st) (restaurants st) (orders st) (users_json st)
    (restaurants_json st) (orders_json st).

Definition store_with_delivery_agents (st : DataStore) (d : Dict.t nat)
  : DataStore :=
  mkStore (agent_heap st) (cust_heap st) (item_heap st) (users st)
    (customers st) d (restaurants st) (orders st) (users_json st)
    (restaurants_json st) (orders_json st).

Definition store_with_restaurants (st : DataStore) (d : Dict.t Restaurant)
  : DataStore :=
  mkStore (agent_heap st) (cust_heap st) (item_heap st) (users st)
    (customers st) (delivery_agents st) d (orders st) (users_json st)
    (restaurants_json st) (orders_json st).

Definition store_with_orders (st : DataStore) (d : Dict.t Order)
  : DataStore :=
  mkStore (agent_heap st) (cust_heap st) (item_heap st) (users st)
    (customers st) (delivery_agents st) (restaurants st) d (users_json st)
    (restaurants_json st) (orders_json st).

Definition store_with_users_json (st : DataStore) (f : Dict.t UserData)
  : DataStore :=
  mkStore (agent_heap st) (cust_heap st) (item_heap st) (users st)
    (customers st) (delivery_agents st) (restaurants st) (orders st)
    (Some f) (restaurants_json st) (orders_json st).

Definition store_with_restaurants_json (st : DataStore)
    (f : Dict.t RestaurantData) : DataStore :=
  mkStore (agent_heap st) (cust_heap st) (item_heap st) (users st)
    (customers st) (delivery_agents st) (restaurants st) (orders st)
    (users_json st) (Some f) (orders_json st).

Definition store_with_orders_json (st : DataStore) (f : Dict.t OrderData)
  : DataStore :=
  mkStore (agent_heap st) (cust_heap st) (item_heap st) (users st)
    (customers st) (delivery_agents st) (restaurants st) (orders st)
    (users_json st) (restaurants_json st) (Some f).

(** ** Computations that read and write the store and may raise

    A raised exception keeps the writes made before it, as in Python. *)

Inductive result (A : Type) :=
| Ok (a : A)
| Raise (e : exn).
Arguments Ok {A} a.
Arguments Raise {A} e.

Definition M (A : Type) : Type := DataStore -> result A * DataStore.

Definition ret {A : Type} (a : A) : M A := fun st => (Ok a, st).

Definition raise {A : Type} (e : exn) : M A := fun st => (Raise e, st).

Definition bind {A B : Type} (m : M A) (k : A -> M B) : M B :=
  fun st =>
    match m st with
    | (Ok a, st') => k a st'
    | (Raise e, st') => (Raise e, st')
    end.

(** [try: m  except Exception as e: h e] *)
Definition catch {A : Type} (m : M A) (h : exn -> M A) : M A :=
  fun st =>
    match m st with
    | (Ok a, st') => (Ok a, st')
    | (Raise e, st') => h e st'
    end.

Definition read : M DataStore := fun st => (Ok st, st).

Definition write (st' : DataStore) : M unit := fun _ => (Ok tt, st').

Definition modify (f : DataStore -> DataStore) : M unit :=
  fun st => (Ok tt, f st).

Definition lift_opt {A : Type} (o : option A) (e : exn) : M A :=
  match o with
  | Some a => ret a
  | None => raise e
  end.

Notation "x <- m ;; k" := (bind m (fun x => k))
  (at level 61, m at next level, right associativity).
Notation "m ;;; k" := (bind m (fun _ => k))
  (at level 61, right associativity).

(** [for x in xs: body x] *)
Fixpoint for_each {A : Type} (xs : list A) (body : A -> M unit) : M unit :=
  match xs with
  | [] => ret tt
  | x :: xs' => body x ;;; for_each xs' body
  end.

(** ** Order entity *)

(** [max(xs)]; [None] stands for the [ValueError] on an empty sequence. *)
Definition py_max (xs : list Z) : option Z :=
  match xs with
  | [] => None
  | x :: xs' => Some (fold_left Z.max xs' x)
  end.

Definition minutes (m : Z) : Z := m * 60000000.

(** [[item.menu_item.prep_time for item in items]] *)
Fixpoint prep_times (h : Heap.t MenuItem) (its : list OrderItem)
  : option (list Z) :=
  match its with
  | [] => Some []
  | it :: its' =>
      match Heap.get h (menu_item it), prep_times h its' with
      | Some m, Some ps => Some (prep_time m :: ps)
      | _, _ => None
      end
  end.

Definition msg_max_empty : string := "max() arg is an empty sequence".

(** [Order.__init__]; [now] is the value of [datetime.datetime.now()]. *)
Definition Order_init (h : Heap.t MenuItem) (now : Z) (oid cid rid : string)
    (its : list OrderItem) (ty : OrderType) : result Order :=
  match prep_times h its with
  | None => Raise (AttributeError "menu_item")
  | Some ps =>
      match py_max ps with
      | None => Raise (ValueError msg_max_empty)
      | Some p =>
          let ready := now + minutes p in
          Ok (mkOrder oid cid rid its ty PLACED None now ready
                (if OrderType_eqb ty DELIVERY
                 then EstimateAt (ready + minutes 15)
                 else NoEstimate))
      end
  end.

(** [OrderItem.get_total_price] *)
Definition item_total_price (h : Heap.t MenuItem) (it : OrderItem)
  : option num :=
  match Heap.get h (menu_item it) with
  | Some m => Some (num_scale (price m) (quantity it))
  | None => None
  end.

(** [sum(...)]: left to right, starting from [0]. *)
Fixpoint sum_prices (h : Heap.t MenuItem) (its : list OrderItem) (acc : num)
  : option num :=
  match its with
  | [] => Some acc
  | it :: its' =>
      match item_total_price h it with
      | Some p => sum_prices h its' (num_add acc p)
      | None => None
      end
  end.

(** [Order.get_total_price] *)
Definition get_total_price (h : Heap.t MenuItem) (o : Order) : option num :=
  sum_prices h (items o) num_zero.

(** Assignment to the [price] attribute of the object at address [a]. *)
Definition set_price (h : Heap.t MenuItem) (a : nat) (p : num)
  : Heap.t MenuItem :=
  match Heap.get h a with
  | Some m => Heap.put h a (item_with_price m p)
  | None => h
  end.

(** ** Persistence: [DataStore.load_data] *)

Definition alloc_agent (a : DeliveryAgent) : M nat :=
  fun st =>
    let (h, addr) := Heap.alloc (agent_heap st) a in
    (Ok addr, store_with_agent_heap st h).

Definition alloc_customer (c : Customer) : M nat :=
  fun st =>
    let (h, addr) := Heap.alloc (cust_heap st) c in
    (Ok addr, store_with_cust_heap st h).

Definition alloc_item (m : MenuItem) : M nat :=
  fun st =>
    let (h, addr) := Heap.alloc (item_heap st) m in
    (Ok addr, store_with_item_heap st h).

Definition set_user (uid : string) (u : URef) : M unit :=
  modify (fun st => store_with_users st (Dict.set (users st) uid u)).

Definition set_customer (uid : string) (a : nat) : M unit :=
  modify (fun st => store_with_customers st (Dict.set (customers st) uid a)).

Definition set_delivery_agent (uid : string) (a : nat) : M unit :=
  modify (fun st =>
            store_with_delivery_agents st (Dict.set (delivery_agents st) uid a)).

Definition set_restaurant (rid : string) (r : Restaurant) : M unit :=
  modify (fun st =>
            store_with_restaurants st (Dict.set (restaurants st) rid r)).

Definition set_order (oid : string) (o : Order) : M unit :=
  modify (fun st => store_with_orders st (Dict.set (orders st) oid o)).

Definition load_agent (uid nm em : string) (av : bool) (cur : option string)
    (done : list string) : M unit :=
  a <- alloc_agent (mkAgent uid nm em av cur done None) ;;
  set_delivery_agent uid a ;;;
  set_user uid (UAgent a).

(** One iteration of the loop over [users.json].  A record without the
    customer fields but with the customer role fails on [data['address']];
    one with the agent role and no agent fields gets the defaults of
    [data.get]. *)
Definition load_user (e : string * UserData) : M unit :=
  let (uid, data) := e in
  match data with
  | CustomerData nm em addr hist =>
      a <- alloc_customer (mkCustomer uid nm em addr hist) ;;
      set_customer uid a ;;;
      set_user uid (UCust a)
  | AgentData nm em av cur done => load_agent uid nm em av cur done
  | OtherData nm em CUSTOMER => raise (KeyError "address")
  | OtherData nm em DELIVERY_AGENT => load_agent uid nm em true None []
  | OtherData nm em r => set_user uid (UPlain (mkUser uid nm em r))
  end.

(** The inner loop over [data['menu_items']]: builds the menu. *)
Fixpoint load_menu (es : Dict.t ItemData) (menu : Dict.t nat)
  : M (Dict.t nat) :=
  match es with
  | [] => ret menu
  | (iid, d) :: es' =>
      a <- alloc_item (mkMenuItem iid (id_name d) (id_description d)
                         (id_price d) (id_prep_time d)) ;;
      load_menu es' (Dict.set menu iid a)
  end.

Definition load_restaurant (e : string * RestaurantData) : M unit :=
  let (rid, data) := e in
  menu <- load_menu (rd_menu_items data) Dict.empty ;;
  set_restaurant rid
    (mkRestaurant rid (rd_name data) (rd_address data) menu (rd_orders data)).

(** The inner loop over [data['items']]: looks each line up in the menu of
    the restaurant as it is now in memory. *)
Fixpoint load_order_items (rid : string) (es : list (string * Z))
  : M (list OrderItem) :=
  match es with
  | [] => ret []
  | (iid, q) :: es' =>
      st <- read ;;
      r <- lift_opt (Dict.get (restaurants st) rid) (KeyError rid) ;;
      a <- lift_opt (Dict.get (menu_items r) iid) (KeyError iid) ;;
      its <- load_order_items rid es' ;;
      ret (mkOrderItem a q :: its)
  end.

Definition estimate_of_json (e : option Z) : Estimate :=
  match e with
  | Some t => EstimateAt t
  | None => NoEstimate
  end.

Definition load_order (now : Z) (e : string * OrderData) : M unit :=
  let (oid, data) := e in
  its <- load_order_items (od_restaurant_id data) (od_items data) ;;
  st <- read ;;
  match Order_init (item_heap st) now oid (od_customer_id data)
          (od_restaurant_id data) its (od_order_type data) with
  | Raise ex => raise ex
  | Ok o =>
      set_order oid
        (mkOrder (order_id o) (customer_id o) (o_restaurant_id o) (items o)
           (order_type o) (od_status data) (od_delivery_agent_id data)
           (od_placed_time data) (od_estimated_ready_time data)
           (estimate_of_json (od_estimated_delivery_time data)))
  end.

Definition for_file {A : Type} (f : option (Dict.t A))
    (body : string * A -> M unit) : M unit :=
  match f with
  | Some es => for_each es body
  | None => ret tt
  end.

(** [load_data]: the three documents in turn; the first exception ends
    the whole load and is swallowed. *)
Definition load_data (now : Z) : M unit :=
  catch
    (st <- read ;;
     for_file (users_json st) load_user ;;;
     for_file (restaurants_json st) load_restaurant ;;;
     for_file (orders_json st) (load_order now))
    (fun _ => ret tt).

(** ** Persistence: [DataStore.save_data] *)

(** [user.to_dict()] for the object under a key of [users]. *)
Definition user_to_dict (st : DataStore) (u : URef) : result UserData :=
  match u with
  | UCust a =>
      match Heap.get (cust_heap st) a with
      | Some c => Ok (CustomerData (c_name c) (c_email c) (address c)
                        (order_history c))
      | None => Raise (AttributeError "to_dict")
      end
  | UAgent a =>
      match Heap.get (agent_heap st) a with
      | Some g => Ok (AgentData (a_name g) (a_email g) (available g)
                        (current_order g) (completed_deliveries g))
      | None => Raise (AttributeError "to_dict")
      end
  | UPlain u' => Ok (OtherData (name u') (email u') (role u'))
  end.

Fixpoint users_to_json (st : DataStore) (us : Dict.t URef)
    (acc : Dict.t UserData) : result (Dict.t UserData) :=
  match us with
  | [] => Ok acc
  | (uid, u) :: us' =>
      match user_to_dict st u with
      | Ok d => users_to_json st us' (Dict.set acc uid d)
      | Raise e => Raise e
      end
  end.

(** [{k: v.to_dict() for k, v in self.menu_items.items()}] *)
Fixpoint menu_to_json (h : Heap.t MenuItem) (menu : Dict.t nat)
    (acc : Dict.t ItemData) : result (Dict.t ItemData) :=
  match menu with
  | [] => Ok acc
  | (iid, a) :: menu' =>
      match Heap.get h a with
      | Some m =>
          menu_to_json h menu'
            (Dict.set acc iid
               (mkItemData (item_name m) (description m) (price m)
                  (prep_time m)))
      | None => Raise (AttributeError "to_dict")
      end
  end.

Fixpoint restaurants_to_json (h : Heap.t MenuItem) (rs : Dict.t Restaurant)
    (acc : Dict.t RestaurantData) : result (Dict.t RestaurantData) :=
  match rs with
  | [] => Ok acc
  | (rid, r) :: rs' =>
      match menu_to_json h (menu_items r) Dict.empty with
      | Ok m =>
          restaurants_to_json h rs'
            (Dict.set acc rid
               (mkRestaurantData (r_name r) (r_address r) m (r_orders r)))
      | Raise e => Raise e
      end
  end.

(** [self.estimated_delivery_time.isoformat() if
    self.estimated_delivery_time else None]: a non-empty string has no
    [isoformat]. *)
Definition estimate_to_json (e : Estimate) : result (option Z) :=
  match e with
  | NoEstimate => Ok None
  | EstimateAt t => Ok (Some t)
  | EstimateText s =>
      if String.eqb s EmptyString then Ok None
      else Raise (AttributeError "isoformat")
  end.

(** The [items] list added to an order's dictionary. *)
Fixpoint items_to_json (h : Heap.t MenuItem) (its : list OrderItem)
  : result (list (string * Z)) :=
  match its with
  | [] => Ok []
  | it :: its' =>
      match Heap.get h (menu_item it) with
      | Some m =>
          match items_to_json h its' with
          | Ok l => Ok ((item_id m, quantity it) :: l)
          | Raise e => Raise e
          end
      | None => Raise (AttributeError "item_id")
      end
  end.

Definition order_to_json (h : Heap.t MenuItem) (o : Order)
  : result OrderData :=
  match estimate_to_json (estimated_delivery_time o) with
  | Raise e => Raise e
  | Ok est =>
      match items_to_json h (items o) with
      | Raise e => Raise e
      | Ok its =>
          Ok (mkOrderData (customer_id o) (o_restaurant_id o) (status o)
                (order_type o) (delivery_agent_id o) (placed_time o)
                (estimated_ready_time o) est its)
      end
  end.

Fixpoint orders_to_json (h : Heap.t MenuItem) (os : Dict.t Order)
    (acc : Dict.t OrderData) : result (Dict.t OrderData) :=
  match os with
  | [] => Ok acc
  | (oid, o) :: os' =>
      match order_to_json h o with
      | Ok d => orders_to_json h os' (Dict.set acc oid d)
      | Raise e => Raise e
      end
  end.

Definition lift_result {A : Type} (r : result A) : M A :=
  match r with
  | Ok a => ret a
  | Raise e => raise e
  end.

(** [save_data]: each document is written once its content has been
    built; an exception leaves the remaining documents as they were and
    is swallowed. *)
Definition save_data : M unit :=
  catch
    (st <- read ;;
     us <- lift_result (users_to_json st (users st) Dict.empty) ;;
     modify (fun s => store_with_users_json s us) ;;;
     rs <- lift_result
             (restaurants_to_json (item_heap st) (restaurants st) Dict.empty) ;;
     modify (fun s => store_with_restaurants_json s rs) ;;;
     os <- lift_result (orders_to_json (item_heap st) (orders st) Dict.empty) ;;
     modify (fun s => store_with_orders_json s os))
    (fun _ => ret tt).

(** ** [OrderService] *)

Definition agent_at (st : DataStore) (a : nat) : option DeliveryAgent :=
  Heap.get (agent_heap st) a.

(** [[agent for agent in self.data_store.delivery_agents.values()
      if agent.available]], as addresses, in dictionary order. *)
Definition available_agents (st : DataStore) : list nat :=
  filter (fun a => match agent_at st a with
                   | Some g => available g
                   | None => false
                   end)
    (Dict.values (delivery_agents st)).

Definition is_nil {A : Type} (l : list A) : bool :=
  match l with [] => true | _ => false end.

Definition put_agent (a : nat) (g : DeliveryAgent) : M unit :=
  modify (fun st => store_with_agent_heap st (Heap.put (agent_heap st) a g)).

Definition put_customer (a : nat) (c : Customer) : M unit :=
  modify (fun st => store_with_cust_heap st (Heap.put (cust_heap st) a c)).

(** [_assign_delivery_agent]: returns the order with its agent set, or
    [None] for [False]. *)
Definition _assign_delivery_agent (o : Order) : M (option Order) :=
  st <- read ;;
  match available_agents st with
  | [] => ret None
  | a :: _ =>
      match agent_at st a with
      | Some g =>
          put_agent a (agent_with g false (Some (order_id o))
                         (completed_deliveries g)) ;;;
          ret (Some (order_with_agent o (Some (a_user_id g))))
      | None => ret None
      end
  end.

Definition string_of_Z (z : Z) : string :=
  NilZero.string_of_int (Z.to_int z).

(** [f"order-{int(time.time())}-{random.randint(1000, 9999)}"] *)
Definition make_order_id (t r : Z) : string :=
  "order-" ++ string_of_Z t ++ "-" ++ string_of_Z r.

Definition msg_restaurant_not_found : string := "Restaurant not found".
Definition msg_no_available_agents : string := "no available agents".
Definition msg_cannot_assign : string := "Cannot assign delivery agent".
Definition msg_item_not_found (iid : string) : string :=
  "Menu item " ++ iid ++ " not found.".

(** The validation loop over the selections. *)
Fixpoint validate_items (menu : Dict.t nat) (sel : list (string * Z))
  : M unit :=
  match sel with
  | [] => ret tt
  | (iid, _) :: sel' =>
      if Dict.mem menu iid then validate_items menu sel'
      else raise (ValueError (msg_item_not_found iid))
  end.

(** The loop that builds the order lines. *)
Fixpoint build_items (menu : Dict.t nat) (sel : list (string * Z))
  : M (list OrderItem) :=
  match sel with
  | [] => ret []
  | (iid, q) :: sel' =>
      a <- lift_opt (Dict.get menu iid) (KeyError iid) ;;
      its <- build_items menu sel' ;;
      ret (mkOrderItem a q :: its)
  end.

Definition is_ValueError (e : exn) : bool :=
  match e with ValueError _ => true | _ => false end.

(** The guard on the agent pool, made before and after the reload. *)
Definition check_agents (ty : OrderType) : M unit :=
  st <- read ;;
  if OrderType_eqb ty DELIVERY && is_nil (available_agents st)
  then raise (ValueError msg_no_available_agents)
  else ret tt.

(** [create_order]; [now], [t] and [r] are the readings of
    [datetime.now()], [int(time.time())] and [random.randint(1000, 9999)].
    The result is the returned order, or [None]. *)
Definition create_order (now t r : Z) (cid rid : string)
    (sel : list (string * Z)) (ty : OrderType) : M (option Order) :=
  st0 <- read ;;
  if negb (Dict.mem (restaurants st0) rid)
  then raise (ValueError msg_restaurant_not_found)
  else
    check_agents ty ;;;
    catch
      (load_data now ;;;
       check_agents ty ;;;
       st1 <- read ;;
       restaurant <- lift_opt (Dict.get (restaurants st1) rid) (KeyError rid) ;;
       validate_items (menu_items restaurant) sel ;;;
       order_items <- build_items (menu_items restaurant) sel ;;
       let oid := make_order_id t r in
       st2 <- read ;;
       order0 <- lift_result
                   (Order_init (item_heap st2) now oid cid rid order_items ty) ;;
       order <- (if OrderType_eqb ty DELIVERY
                 then
                   assigned <- _assign_delivery_agent order0 ;;
                   lift_opt assigned (ValueError msg_cannot_assign)
                 else ret order0) ;;
       set_order oid order ;;;
       st3 <- read ;;
       caddr <- lift_opt (Dict.get (customers st3) cid) (KeyError cid) ;;
       customer <- lift_opt (Heap.get (cust_heap st3) caddr)
                     (AttributeError "order_history") ;;
       put_customer caddr
         (customer_with_history customer (order_history customer ++ [oid])) ;;;
       set_restaurant rid
         (restaurant_with_orders restaurant (r_orders restaurant ++ [oid])) ;;;
       save_data ;;;
       ret (Some order))
      (fun e => if is_ValueError e then raise e else ret None).

(** *** Times of day *)

Record time_of_day := mkTime {
  hour : Z;
  minute : Z;
  second : Z;
  microsecond : Z
}.

Definition time_key (t : time_of_day) : Z :=
  ((hour t * 60 + minute t) * 60 + second t) * 1000000 + microsecond t.

(** [a < b] on [datetime.time] values without time zone (fields within
    their ranges, as [now().time()] and [strptime] give them). *)
Definition time_ltb (a b : time_of_day) : bool :=
  time_key a <? time_key b.

Definition digit_of (c : ascii) : option Z :=
  let n := Z.of_nat (nat_of_ascii c) in
  if (48 <=? n) && (n <=? 57) then Some (n - 48) else None.

Definition is_colon (c : ascii) : bool := Ascii.eqb c ":"%char.

(** The minute field and the end of the input: [[0-5]\d|\d], then nothing
    may remain. *)
Definition parse_minute (s : string) : option Z :=
  match s with
  | String c1 (String c2 EmptyString) =>
      match digit_of c1, digit_of c2 with
      | Some d1, Some d2 => if d1 <=? 5 then Some (d1 * 10 + d2) else None
      | _, _ => None
      end
  | String c1 EmptyString => digit_of c1
  | _ => None
  end.

(** The hour field and the colon: [2[0-3]|[0-1]\d|\d], then [:].  The
    result is the hour and the rest of the input. *)
Definition parse_hour (s : string) : option (Z * string) :=
  match s with
  | String c1 (String c2 rest) =>
      match digit_of c1 with
      | None => None
      | Some d1 =>
          if is_colon c2 then Some (d1, rest)
          else
            match digit_of c2, rest with
            | Some d2, String c3 rest' =>
                if is_colon c3 &&
                   (((d1 =? 2) && (d2 <=? 3)) || (d1 <=? 1))
                then Some (d1 * 10 + d2, rest')
                else None
            | _, _ => None
            end
      end
  | _ => None
  end.

(** [datetime.datetime.strptime(s, "%H:%M").time()] on ASCII input;
    [None] stands for the [ValueError]. *)
Definition strptime_HM (s : string) : option time_of_day :=
  match parse_hour s with
  | Some (h, rest) =>
      match parse_minute rest with
      | Some m => Some (mkTime h m 0 0)
      | None => None
      end
  | None => None
  end.

Definition msg_invalid_time : string := "Invalid delivery time format".
Definition msg_time_in_past : string := "Delivery time cannot be in the past".

(** [update_estimated_delivery_time]; [now_time] is the reading of
    [datetime.datetime.now().time()]. *)
Definition update_estimated_delivery_time (now_time : time_of_day)
    (oid new_delivery_time : string) (agent_id : option string) : M bool :=
  st <- read ;;
  match Dict.get (orders st) oid with
  | None => ret false
  | Some order =>
      if OrderStatus_eqb (status order) DELIVERED then ret false
      else if negb (opt_string_eqb (delivery_agent_id order) agent_id)
      then ret false
      else
        match strptime_HM new_delivery_time with
        | None => raise (ValueError msg_invalid_time)
        | Some new_time =>
            if time_ltb new_time now_time
            then raise (ValueError msg_time_in_past)
            else
              set_order oid
                (order_with_estimate order (EstimateText new_delivery_time)) ;;;
              ret true
        end
  end.

(** [toggle_delivery_agent_duty] *)
Definition toggle_delivery_agent_duty (agent_id : string) : M bool :=
  st <- read ;;
  match Dict.get (delivery_agents st) agent_id with
  | None => ret false
  | Some a =>
      agent <- lift_opt (agent_at st a) (AttributeError "current_order") ;;
      if truthy (current_order agent) then ret false
      else
        match is_on_duty agent with
        | None => raise (AttributeError "is_on_duty")
        | Some d =>
            put_agent a (agent_with_duty agent (Some (negb d))) ;;;
            ret true
        end
  end.

Definition in_list (s : string) (l : list string) : bool :=
  existsb (String.eqb s) l.

(** The agent bookkeeping of [update_order_status] when an order becomes
    [DELIVERED]. *)
Definition complete_delivery (oid : string) (aid : string) : M unit :=
  st <- read ;;
  match Dict.get (delivery_agents st) aid with
  | None => ret tt
  | Some a =>
      match agent_at st a with
      | None => ret tt
      | Some agent =>
          let cur := if opt_string_eqb (current_order agent) (Some oid)
                     then None else current_order agent in
          let done := if in_list oid (completed_deliveries agent)
                      then completed_deliveries agent
                      else completed_deliveries agent ++ [oid] in
          put_agent a (agent_with agent true cur done)
      end
  end.

(** [update_order_status] *)
Definition update_order_status (now : Z) (oid : string)
    (new_status : OrderStatus) (user : option string) : M bool :=
  st0 <- read ;;
  if negb (Dict.mem (orders st0) oid) then ret false
  else
    catch
      (load_data now ;;;
       st <- read ;;
       order <- lift_opt (Dict.get (orders st) oid) (KeyError oid) ;;
       if truthy user && truthy (delivery_agent_id order) &&
          negb (opt_string_eqb user (delivery_agent_id order))
       then ret false
       else if OrderStatus_eqb (status order) DELIVERED then ret false
       else
         set_order oid (order_with_status order new_status) ;;;
         (if OrderStatus_eqb new_status DELIVERED &&
             truthy (delivery_agent_id order)
          then
            match delivery_agent_id order with
            | Some aid => complete_delivery oid aid
            | None => ret tt
            end
          else ret tt) ;;;
         save_data ;;;
         ret true)
      (fun _ => ret false).

(** [cancel_order]; the [user_id] argument is not used by the code. *)
Definition cancel_order (now : Z) (oid : string) : M bool :=
  catch
    (load_data now ;;;
     st <- read ;;
     order <- lift_opt (Dict.get (orders st) oid) (KeyError oid) ;;
     if OrderStatus_eqb (status order) PLACED ||
        OrderStatus_eqb (status order) PREPARING
     then
       set_order oid (order_with_status order CANCELLED) ;;;
       (if truthy (delivery_agent_id order)
        then
          match delivery_agent_id order with
          | Some aid =>
              st' <- read ;;
              a <- lift_opt (Dict.get (delivery_agents st') aid)
                     (KeyError aid) ;;
              agent <- lift_opt (agent_at st' a) (AttributeError "available") ;;
              put_agent a (agent_with agent true None
                             (completed_deliveries agent))
          | None => ret tt
          end
        else ret tt) ;;;
       save_data ;;;
       ret true
     else ret false)
    (fun _ => ret false).

(** The availability invariant of one agent and of the whole pool. *)
Definition agent_ok (g : DeliveryAgent) : bool :=
  match current_order g with
  | Some _ => negb (available g)
  | None => true
  end.

Definition pool_ok (st : DataStore) : bool :=
  forallb (fun a => match agent_at st a with
                    | Some g => agent_ok g
                    | None => true
                    end)
    (Dict.values (delivery_agents st)).

(** ** [ManagerService] *)

(** [del self.data_store.users[uid]] (on a key that is there) *)
Definition remove_user (uid : string) : M unit :=
  modify (fun st => store_with_users st (Dict.remove (users st) uid)).

(** [del self.data_store.delivery_agents[uid]] *)
Definition remove_delivery_agent_entry (uid : string) : M unit :=
  modify (fun st =>
            store_with_delivery_agents st
              (Dict.remove (delivery_agents st) uid)).

(** [remove_delivery_agent]; [profiles] is the service's
    [delivery_agent_profiles], whose values the call does not read.  The
    result is the returned flag with the profiles as the call leaves
    them. *)
Definition remove_delivery_agent {P : Type} (agent_id : string)
    (profiles : Dict.t P) : M (bool * Dict.t P) :=
  catch
    (st <- read ;;
     if negb (Dict.mem (delivery_agents st) agent_id)
     then ret (false, profiles)
     else
       a <- lift_opt (Dict.get (delivery_agents st) agent_id)
              (KeyError agent_id) ;;
       agent <- lift_opt (agent_at st a) (AttributeError "current_order") ;;
       if truthy (current_order agent) then ret (false, profiles)
       else
         (if Dict.mem (users st) agent_id then remove_user agent_id
          else raise (KeyError agent_id)) ;;;
         remove_delivery_agent_entry agent_id ;;;
         let profiles' := if Dict.mem profiles agent_id
                          then Dict.remove profiles agent_id
                          else profiles in
         save_data ;;;
         ret (true, profiles'))
    (fun _ => ret (false, profiles)).

(** ** Read-only views used in the statements *)

(** The current prices of the catalog items an order's lines refer to. *)
Fixpoint line_prices (h : Heap.t MenuItem) (its : list OrderItem)
  : option (list num) :=
  match its with
  | [] => Some []
  | it :: its' =>
      match Heap.get h (menu_item it), line_prices h its' with
      | Some m, Some ps => Some (price m :: ps)
      | _, _ => None
      end
  end.

(** The sum of [price * quantity] over paired prices and quantities. *)
Definition priced_total (ps : list num) (qs : list Z) : num :=
  fold_left num_add
    (map (fun pq => num_scale (fst pq) (snd pq)) (combine ps qs)) num_zero.

(** [restaurants[rid].menu_items[iid]], as an address. *)
Definition catalog_address (st : DataStore) (rid iid : string) : option nat :=
  match Dict.get (restaurants st) rid with
  | Some r => Dict.get (menu_items r) iid
  | None => None
  end.

(** The store [update_order_status] saves once the order [o] has passed
    its checks: the status is written and, for [DELIVERED] with an agent
    on the order, the agent's bookkeeping is done. *)
Definition status_written (st : DataStore) (oid : string) (o : Order)
    (ns : OrderStatus) : DataStore :=
  let st' := store_with_orders st
               (Dict.set (orders st) oid (order_with_status o ns)) in
  match delivery_agent_id o with
  | Some aid =>
      if OrderStatus_eqb ns DELIVERED && truthy (delivery_agent_id o)
      then snd (complete_delivery oid aid st')
      else st'
  | None => st'
  end.

(** The caller passes the agent check of [update_order_status]: not
    [user_id and order.delivery_agent_id and
     user_id != order.delivery_agent_id]. *)
Definition authorised (user : option string) (o : Order) : bool :=
  negb (truthy user && truthy (delivery_agent_id o) &&
        negb (opt_string_eqb user (delivery_agent_id o))).

(** [order.status in [OrderStatus.PLACED, OrderStatus.PREPARING]] *)
Definition cancellable (s : OrderStatus) : bool :=
  OrderStatus_eqb s PLACED || OrderStatus_eqb s PREPARING.

(** The store is in step with [orders.json] on order [oid]: every record
    of the document under that key has the stored order's status and
    agent. *)
Definition order_in_step (st : DataStore) (oid : string) (o : Order) : Prop :=
  forall f d, orders_json st = Some f -> In (oid, d) f ->
    od_status d = status o /\ od_delivery_agent_id d = delivery_agent_id o.


(** The part of the store that [delivered_state] reads. *)
Definition core (st : DataStore) :=
  (agent_heap st, delivery_agents st, orders st, users_json st,
   orders_json st).

(** The computation returned. *)
Definition is_ok {A : Type} (r : result A) : bool :=
  match r with Ok _ => true | Raise _ => false end.

(** [save_data] would write all three documents from this store. *)
Definition writable (st : DataStore) : bool :=
  is_ok (users_to_json st (users st) Dict.empty) &&
  is_ok (restaurants_to_json (item_heap st) (restaurants st) Dict.empty) &&
  is_ok (orders_to_json (item_heap st) (orders st) Dict.empty).

(** Successive calls [update_order_status(oid, ns, user)], one per clock
    reading, with their results in call order. *)
Fixpoint repeat_update_status (nows : list Z) (oid : string)
    (ns : OrderStatus) (user : option string) (st : DataStore)
  : list (result bool) * DataStore :=
  match nows with
  | [] => ([], st)
  | now :: nows' =>
      let (r, st') := update_order_status now oid ns user st in
      let (rs, st'') := repeat_update_status nows' oid ns user st' in
      (r :: rs, st'')
  end.

(** How many times [oid] is in [l]. *)
Definition occurrences (oid : string) (l : list string) : nat :=
  count_occ string_dec l oid.

(** A record of [users.json] from which a reload rebuilds an agent whose
    completed list holds [oid] once (records that do not rebuild an agent
    are harmless). *)
Definition record_completed_once (oid : string) (d : UserData) : Prop :=
  match d with
  | CustomerData _ _ _ _ => True
  | AgentData _ _ _ _ done => occurrences oid done = 1%nat
  | OtherData _ _ r => r <> DELIVERY_AGENT
  end.

(** The state of affairs once order [oid] of agent [aid] has been
    delivered and saved: the order is [DELIVERED] in memory and in
    [orders.json]; the agent's completed list holds [oid] once in memory
    and in [users.json]. *)
Record delivered_state (oid aid : string) (st : DataStore) : Prop := {
  ds_order :
    exists o, Dict.get (orders st) oid = Some o /\ status o = DELIVERED;
  ds_order_json :
    forall f d, orders_json st = Some f -> In (oid, d) f ->
                od_status d = DELIVERED;
  ds_agent :
    exists a g, Dict.get (delivery_agents st) aid = Some a /\
                agent_at st a = Some g /\
                occurrences oid (completed_deliveries g) = 1%nat;
  ds_agent_json :
    forall f d, users_json st = Some f -> In (aid, d) f ->
                record_completed_once oid d
}.

End Model.

Arguments Ok {A} a.
Arguments Raise {A} e.

(** The store after the reload that an operation starts with. *)
Definition reload {num : Type} (now : Z) (st : DataStore num)
  : DataStore num :=
  snd (load_data now st).

(** ** A concrete store

    One restaurant [R1] with one item [P1] (price 10, 15 minutes), one
    customer [C1] and one delivery agent [A1]; prices are integers. *)

Definition demo_objects : DataStore Z :=
  mkStore [mkAgent "A1" "Ann" "ann@example.com" true None [] None]
          [mkCustomer "C1" "Cy" "cy@example.com" "1 Elm St" []]
          [mkMenuItem "P1" "Pizza" "Plain" 10 15]
          [("C1", UCust 0); ("A1", UAgent 0)]
          [("C1", 0%nat)]
          [("A1", 0%nat)]
          [("R1", mkRestaurant "R1" "Rest" "2 Oak St" [("P1", 0%nat)] [])]
          []
          None None None.

(** A catalog of two items, of 15 and 20 minutes. *)
Definition demo_catalog : Heap.t (MenuItem Z) :=
  [mkMenuItem "P1" "Pizza" "Plain" 10 15; mkMenuItem "S1" "Soup" "Hot" 4 20].

(** The same store once saved. *)
Definition demo_store : DataStore Z := snd (save_data demo_objects).

Definition total_Z (h : Heap.t (MenuItem Z)) (o : Order) : option Z :=
  get_total_price 0 Z.add Z.mul h o.

Definition demo_oid : string := make_order_id 1700000000 1234.

(** [C1] places a delivery order for two [P1]. *)
Definition demo_placement : result (option Order) * DataStore Z :=
  create_order 1000 1700000000 1234 "C1" "R1" [("P1", 2)] DELIVERY demo_store.

Definition demo_placed : DataStore Z := snd demo_placement.

(** That order, cancelled. *)
Definition demo_cancelled : DataStore Z :=
  snd (cancel_order 2000 demo_oid demo_placed).

(** That order, delivered by its agent instead. *)
Definition demo_delivered : DataStore Z :=
  snd (update_order_status 2000 demo_oid DELIVERED (Some "A1") demo_placed).

(** After the cancellation, a second delivery order, which gets the same
    agent, and then the first order marked as delivered. *)
Definition demo_oid2 : string := make_order_id 1700000060 5678.

Definition demo_second_placed : DataStore Z :=
  snd (create_order 3000 1700000060 5678 "C1" "R1" [("P1", 1)] DELIVERY
         demo_cancelled).

Definition demo_stale_delivery : result bool * DataStore Z :=
  update_order_status 4000 demo_oid DELIVERED None demo_second_placed.

(** After the cancellation, instead: the manager removes the freed agent
    (no profile is held for it), the cancelled order is set back to
    [PLACED], and it is cancelled again. *)
Definition demo_agent_removed : result (bool * Dict.t unit) * DataStore Z :=
  remove_delivery_agent "A1" Dict.empty demo_cancelled.

Definition demo_placed_again : result bool * DataStore Z :=
  update_order_status 3000 demo_oid PLACED None (snd demo_agent_removed).

Definition demo_cancel_again : result bool * DataStore Z :=
  cancel_order 4000 demo_oid (snd demo_placed_again).

(** The status of order [oid] in [orders.json]. *)
Definition saved_status_of (st : DataStore Z) (oid : string)
  : option OrderStatus :=
  match orders_json st with
  | Some f => option_map od_status (Dict.get f oid)
  | None => None
  end.

Definition noon : time_of_day := mkTime 12 0 0 0.

(** [order.get_total_price()] for the stored order [oid]. *)
Definition total_of (st : DataStore Z) (oid : string) : option Z :=
  match Dict.get (orders st) oid with
  | Some o => total_Z (item_heap st) o
  | None => None
  end.

(** The placed order's store after [P1.price = 20] on the catalog item,
    and that store saved and loaded again. *)
Definition demo_repriced : DataStore Z :=
  match catalog_address demo_placed "R1" "P1" with
  | Some a =>
      store_with_item_heap demo_placed (set_price (item_heap demo_placed) a 20)
  | None => demo_placed
  end.

Definition demo_repriced_reloaded : DataStore Z :=
  reload 5000 (snd (save_data demo_repriced)).

Definition status_of (st : DataStore Z) (oid : string) : option OrderStatus :=
  option_map status (Dict.get (orders st) oid).

Definition agent_named (st : DataStore Z) (aid : string)
  : option DeliveryAgent :=
  match Dict.get (delivery_agents st) aid with
  | Some a => agent_at st a
  | None => None
  end.


(** ** Properties *)

Section Properties.

Variable num : Type.

(** *** Equality tests *)

Lemma OrderStatus_eqb_eq (a b : OrderStatus) :
  OrderStatus_eqb a b = true <-> a = b.
Proof. destruct a, b; simpl; split; congruence. Qed.

Lemma OrderStatus_eqb_neq (a b : OrderStatus) :
  OrderStatus_eqb a b = false <-> a <> b.
Proof. destruct a, b; simpl; split; congruence. Qed.

Lemma opt_string_eqb_refl (a : option string) : opt_string_eqb a a = true.
Proof. destruct a; simpl; [apply String.eqb_refl|reflexivity]. Qed.

Lemma opt_string_eqb_eq (a b : option string) :
  opt_string_eqb a b = true <-> a = b.
Proof.
  destruct a, b; simpl; split; try congruence.
  - intros H. apply String.eqb_eq in H. congruence.
  - intros H. injection H as ->. apply String.eqb_refl.
Qed.

Lemma cancellable_iff (s : OrderStatus) :
  cancellable s = true <-> s = PLACED \/ s = PREPARING.
Proof.
  unfold cancellable. destruct s; simpl; split; auto;
    try discriminate; intros [H|H]; discriminate.
Qed.

(** *** Dictionaries *)

Lemma dict_get_set_same {V : Type} (d : Dict.t V) (k : string) (v : V) :
  Dict.get (Dict.set d k v) k = Some v.
Proof.
  induction d as [|[k' v'] d IH]; simpl.
  - now rewrite String.eqb_refl.
  - destruct (String.eqb k' k) eqn:E; simpl; rewrite E; auto.
Qed.

Lemma dict_get_set_other {V : Type} (d : Dict.t V) (k k' : string) (v : V) :
  k' <> k -> Dict.get (Dict.set d k v) k' = Dict.get d k'.
Proof.
  intros Hne.
  induction d as [|[k0 v0] d IH]; simpl.
  - destruct (String.eqb k k') eqn:E; [|reflexivity].
    apply String.eqb_eq in E. congruence.
  - destruct (String.eqb k0 k) eqn:E; simpl.
    + apply String.eqb_eq in E. subst k0.
      destruct (String.eqb k k') eqn:E'; [|reflexivity].
      apply String.eqb_eq in E'. congruence.
    + now rewrite IH.
Qed.

Lemma dict_mem_get {V : Type} (d : Dict.t V) (k : string) :
  Dict.mem d k = true <-> exists v, Dict.get d k = Some v.
Proof.
  unfold Dict.mem. destruct (Dict.get d k) as [v|]; split.
  - eauto.
  - reflexivity.
  - discriminate.
  - intros [v H]. discriminate.
Qed.

Lemma in_dict_get {V : Type} (d : Dict.t V) (k : string) (v : V) :
  Dict.get d k = Some v -> In (k, v) d.
Proof.
  induction d as [|[k0 v0] d IH]; simpl; [discriminate|].
  destruct (String.eqb k0 k) eqn:E.
  - apply String.eqb_eq in E. intros [= ->]. left. congruence.
  - intros H. right. now apply IH.
Qed.

Lemma dict_set_in {V : Type} (d : Dict.t V) (k k' : string) (v v' : V) :
  In (k', v') (Dict.set d k v) -> (k' = k /\ v' = v) \/ In (k', v') d.
Proof.
  induction d as [|[k0 v0] d IH]; simpl.
  - intros [[= <- <-]|[]]. now left.
  - destruct (String.eqb k0 k) eqn:E; simpl.
    + apply String.eqb_eq in E. subst k0.
      intros [[= <- <-]|H]; [now left|right; now right].
    + intros [H|H]; [right; now left|].
      destruct (IH H) as [?|?]; [now left|right; now right].
Qed.

Lemma dict_set_forallb {V : Type} (p : string * V -> bool) (d : Dict.t V)
    (k : string) (v : V) :
  forallb p d = true -> p (k, v) = true ->
  forallb p (Dict.set d k v) = true.
Proof.
  intros Hd Hv. apply forallb_forall. intros [k' v'] Hin.
  destruct (dict_set_in _ _ _ _ _ Hin) as [[-> ->]|Hin']; [exact Hv|].
  rewrite forallb_forall in Hd. now apply Hd.
Qed.

Lemma dict_unique_get {V : Type} (d : Dict.t V) (k : string) (v : V) :
  NoDup (Dict.keys d) -> In (k, v) d -> Dict.get d k = Some v.
Proof.
  induction d as [|[k0 v0] d IH]; simpl; [contradiction|].
  intros Hnd [[= -> ->]|Hin].
  - now rewrite String.eqb_refl.
  - inversion Hnd as [|? ? Hnot Hnd']; subst.
    destruct (String.eqb k0 k) eqn:E.
    + apply String.eqb_eq in E. subst k0. exfalso. apply Hnot.
      unfold Dict.keys. apply in_map_iff. now exists (k, v).
    + now apply IH.
Qed.

Lemma dict_set_keys {V : Type} (d : Dict.t V) (k : string) (v : V) :
  Dict.keys (Dict.set d k v)
  = if Dict.mem d k then Dict.keys d else Dict.keys d ++ [k].
Proof.
  unfold Dict.mem.
  induction d as [|[k0 v0] d IH]; simpl; [reflexivity|].
  destruct (String.eqb k0 k) eqn:E; simpl.
  - apply String.eqb_eq in E. now subst.
  - rewrite IH. now destruct (Dict.get d k).
Qed.

Lemma dict_get_none_keys {V : Type} (d : Dict.t V) (k : string) :
  Dict.get d k = None -> ~ In k (Dict.keys d).
Proof.
  induction d as [|[k0 v0] d IH]; simpl; [tauto|].
  destruct (String.eqb k0 k) eqn:E; [discriminate|].
  intros H [->|Hin]; [now rewrite String.eqb_refl in E|now apply IH].
Qed.

Lemma dict_set_unique {V : Type} (d : Dict.t V) (k : string) (v : V) :
  NoDup (Dict.keys d) -> NoDup (Dict.keys (Dict.set d k v)).
Proof.
  intros Hnd. rewrite dict_set_keys. unfold Dict.mem.
  destruct (Dict.get d k) eqn:E; [exact Hnd|].
  apply NoDup_app; [exact Hnd|repeat constructor; simpl; tauto|].
  intros x Hx [Hk|[]]. subst x. now apply (dict_get_none_keys d k).
Qed.

Lemma dict_set_in_unique {V : Type} (d : Dict.t V) (k : string) (v v' : V) :
  NoDup (Dict.keys d) -> In (k, v') (Dict.set d k v) -> v' = v.
Proof.
  intros Hnd Hin.
  pose proof (@dict_set_unique _ d k v Hnd) as Hnd'.
  pose proof (@dict_unique_get _ _ k v' Hnd' Hin) as Hg.
  rewrite dict_get_set_same in Hg. congruence.
Qed.

(** *** Heaps *)

Lemma heap_get_put_same {A : Type} (h : Heap.t A) (a : nat) (x y : A) :
  Heap.get h a = Some x -> Heap.get (Heap.put h a y) a = Some y.
Proof.
  unfold Heap.get. revert a.
  induction h as [|z h IH]; intros [|a]; simpl; try discriminate; auto.
Qed.

Lemma heap_get_put_other {A : Type} (h : Heap.t A) (a b : nat) (y : A) :
  a <> b -> Heap.get (Heap.put h a y) b = Heap.get h b.
Proof.
  unfold Heap.get. revert a b.
  induction h as [|z h IH]; intros [|a] [|b] Hne; simpl; auto.
  congruence.
Qed.

Lemma heap_get_alloc_old {A : Type} (h : Heap.t A) (a : nat) (x y : A) :
  Heap.get h a = Some x -> Heap.get (fst (Heap.alloc h y)) a = Some x.
Proof.
  unfold Heap.get, Heap.alloc. simpl. intros H.
  rewrite nth_error_app1; [assumption|].
  apply nth_error_Some. congruence.
Qed.

Lemma heap_get_alloc_new {A : Type} (h : Heap.t A) (y : A) :
  Heap.get (fst (Heap.alloc h y)) (snd (Heap.alloc h y)) = Some y.
Proof.
  unfold Heap.get, Heap.alloc. simpl.
  rewrite nth_error_app2 by lia. now rewrite Nat.sub_diag.
Qed.

Lemma heap_get_app_new {A : Type} (h : Heap.t A) (y : A) :
  Heap.get (h ++ [y]) (List.length h) = Some y.
Proof. apply (heap_get_alloc_new h y). Qed.

Lemma heap_put_map {A B : Type} (f : A -> B) (h : Heap.t A) (a : nat)
    (x y : A) :
  Heap.get h a = Some x -> f y = f x ->
  map f (Heap.put h a y) = map f h.
Proof.
  revert a. induction h as [|z h IH]; intros [|a]; simpl; try discriminate.
  - intros [= ->] ->. reflexivity.
  - intros Hget Hf. f_equal. now apply IH.
Qed.

Lemma agent_at_app (s : DataStore num) (a : nat) (g g' : DeliveryAgent) :
  agent_at s a = Some g ->
  Heap.get (agent_heap s ++ [g']) a = Some g.
Proof.
  unfold agent_at. intros H.
  apply (heap_get_alloc_old (agent_heap s) a g' H).
Qed.

(** *** Lists *)

Lemma py_max_spec (xs : list Z) (p : Z) :
  py_max xs = Some p -> In p xs /\ (forall q, In q xs -> q <= p).
Proof.
  destruct xs as [|x xs]; simpl; [discriminate|].
  intros H; injection H as <-.
  revert x.
  induction xs as [|y ys IH]; intros x; simpl.
  - split; [now left|]. intros q [->|[]]; lia.
  - destruct (IH (Z.max x y)) as [Hin Hle].
    split.
    + destruct Hin as [Heq|Hin]; [|now right; right].
      rewrite <- Heq.
      destruct (Z.max_spec x y) as [[_ ->]|[_ ->]]; [right; now left|now left].
    + intros q [->|[->|Hq]].
      * specialize (Hle (Z.max q y) (or_introl eq_refl)). lia.
      * specialize (Hle (Z.max x q) (or_introl eq_refl)). lia.
      * apply Hle. now right.
Qed.

Lemma occurrences_appended (oid : string) (l : list string) :
  in_list oid l = false -> occurrences oid (l ++ [oid]) = 1%nat.
Proof.
  intros Hin. unfold occurrences.
  rewrite count_occ_app. simpl.
  destruct (string_dec oid oid) as [_|Hne]; [|congruence].
  assert (Hz : count_occ string_dec l oid = 0%nat).
  { apply count_occ_not_In. intros HIn.
    unfold in_list in Hin.
    assert (existsb (String.eqb oid) l = true); [|congruence].
    apply existsb_exists. exists oid. split; [exact HIn|].
    apply String.eqb_refl. }
  rewrite Hz. reflexivity.
Qed.

(** *** The order entity *)

Lemma prep_times_total (h : Heap.t (MenuItem num)) (its : list OrderItem) :
  (forall it, In it its -> exists m, Heap.get h (menu_item it) = Some m) ->
  exists ps, prep_times h its = Some ps.
Proof.
  induction its as [|it its IH]; intros Hall; simpl.
  - now exists [].
  - destruct (Hall it (or_introl eq_refl)) as [m Hm]. rewrite Hm.
    destruct (IH (fun it' Hin => Hall it' (or_intror Hin))) as [ps Hps].
    rewrite Hps. eauto.
Qed.

(** Every entry of the list is the [prep_time] of the catalog object of
    one of the lines. *)
Lemma prep_times_from_line (h : Heap.t (MenuItem num)) (its : list OrderItem)
    (ps : list Z) (p : Z) :
  prep_times h its = Some ps -> In p ps ->
  exists it m,
    In it its /\ Heap.get h (menu_item it) = Some m /\ prep_time m = p.
Proof.
  revert ps. induction its as [|it its IH]; intros ps; simpl.
  - intros [= <-] [].
  - destruct (Heap.get h (menu_item it)) as [m|] eqn:Hm; [|discriminate].
    destruct (prep_times h its) as [ps'|]; [|discriminate].
    intros [= <-] [Hp|Hin].
    + exists it, m. auto.
    + destruct (IH ps' eq_refl Hin) as (it' & m' & Hin' & Hm' & Hp').
      exists it', m'. auto.
Qed.

(** The [prep_time] of the catalog object of every line is in the list. *)
Lemma prep_times_of_line (h : Heap.t (MenuItem num)) (its : list OrderItem)
    (ps : list Z) (it : OrderItem) (m : MenuItem num) :
  prep_times h its = Some ps -> In it its ->
  Heap.get h (menu_item it) = Some m -> In (prep_time m) ps.
Proof.
  revert ps. induction its as [|it0 its IH]; intros ps; simpl.
  - intros _ [].
  - destruct (Heap.get h (menu_item it0)) as [m0|] eqn:Hm0; [|discriminate].
    destruct (prep_times h its) as [ps'|]; [|discriminate].
    intros [= <-] [Heq|Hin] Hm.
    + subst it0. left. congruence.
    + right. now apply IH.
Qed.

(** C9. An order built from a non-empty list of lines, each of which
    refers to an object of the catalog, is returned with [placed_time] the
    clock reading and [estimated_ready_time] later by [p] minutes
    ([p * 60000000] microseconds), where [p] is the [prep_time] of the
    catalog object of one of the lines and no line's catalog object has a
    greater one; [estimated_delivery_time] is 15 minutes
    ([15 * 60000000] microseconds) after the ready time for a delivery
    order and absent for any other kind. *)
Theorem order_init_estimates (h : Heap.t (MenuItem num)) (now : Z)
    (oid cid rid : string) (its : list OrderItem) (ty : OrderType) :
  its <> [] ->
  (forall it, In it its -> exists m, Heap.get h (menu_item it) = Some m) ->
  exists o it_max m_max,
    Order_init h now oid cid rid its ty = Ok o /\
    In it_max its /\ Heap.get h (menu_item it_max) = Some m_max /\
    (forall it m, In it its -> Heap.get h (menu_item it) = Some m ->
       prep_time m <= prep_time m_max) /\
    placed_time o = now /\
    estimated_ready_time o = now + prep_time m_max * 60000000 /\
    (ty = DELIVERY ->
     estimated_delivery_time o
     = EstimateAt (now + prep_time m_max * 60000000 + 15 * 60000000)) /\
    (ty <> DELIVERY -> estimated_delivery_time o = NoEstimate).
Proof.
  intros Hne Hall.
  destruct (@prep_times_total h its Hall) as [ps Hps].
  unfold Order_init. rewrite Hps.
  destruct (py_max ps) as [p|] eqn:Hmax.
  - destruct (py_max_spec _ Hmax) as [Hin Hle].
    destruct (@prep_times_from_line h its ps p Hps Hin)
      as (it & m & Hit & Hm & Hp).
    eexists; exists it, m; split; [reflexivity|]. simpl.
    split; [exact Hit|]. split; [exact Hm|].
    split.
    { intros it' m' Hit' Hm'. rewrite Hp. apply Hle.
      exact (@prep_times_of_line h its ps it' m' Hps Hit' Hm'). }
    split; [reflexivity|].
    unfold minutes. rewrite Hp.
    split; [reflexivity|].
    split.
    + intros ->. reflexivity.
    + intros Hty. destruct ty; [contradiction|reflexivity].
  - exfalso. destruct its as [|it its']; [contradiction|].
    simpl in Hps.
    destruct (Heap.get h (menu_item it)); [|discriminate].
    destruct (prep_times h its'); [|discriminate].
    injection Hps as <-. discriminate.
Qed.

(** *** [save_data] writes documents only *)

Lemma save_data_ok (st : DataStore num) : fst (save_data st) = Ok tt.
Proof.
  unfold save_data, catch, bind, read, lift_result, modify, ret, raise.
  destruct (users_to_json st (users st) Dict.empty); simpl; [|reflexivity].
  destruct (restaurants_to_json (item_heap st) (restaurants st) Dict.empty);
    simpl; [|reflexivity].
  destruct (orders_to_json (item_heap st) (orders st) Dict.empty);
    reflexivity.
Qed.

Ltac save_frame st :=
  unfold save_data, catch, bind, read, lift_result, modify, ret, raise;
  destruct (users_to_json st (users st) Dict.empty); simpl;
  [|reflexivity];
  destruct (restaurants_to_json (item_heap st) (restaurants st) Dict.empty);
  simpl; [|reflexivity];
  destruct (orders_to_json (item_heap st) (orders st) Dict.empty);
  reflexivity.

Lemma save_data_orders (st : DataStore num) :
  orders (snd (save_data st)) = orders st.
Proof. save_frame st. Qed.

Lemma save_data_agent_heap (st : DataStore num) :
  agent_heap (snd (save_data st)) = agent_heap st.
Proof. save_frame st. Qed.

Lemma save_data_delivery_agents (st : DataStore num) :
  delivery_agents (snd (save_data st)) = delivery_agents st.
Proof. save_frame st. Qed.

Lemma save_data_users (st : DataStore num) :
  users (snd (save_data st)) = users st.
Proof. save_frame st. Qed.

Lemma save_data_run (st : DataStore num) :
  save_data st = (Ok tt, snd (save_data st)).
Proof.
  rewrite <- (save_data_ok st). now destruct (save_data st).
Qed.

Lemma save_data_writes (st : DataStore num) :
  writable st = true ->
  exists fu fo,
    users_to_json st (users st) Dict.empty = Ok fu /\
    orders_to_json (item_heap st) (orders st) Dict.empty = Ok fo /\
    users_json (snd (save_data st)) = Some fu /\
    orders_json (snd (save_data st)) = Some fo.
Proof.
  unfold writable, save_data, catch, bind, read, lift_result, modify, ret,
    raise.
  destruct (users_to_json st (users st) Dict.empty) as [fu|]; simpl;
    [|discriminate].
  destruct (restaurants_to_json (item_heap st) (restaurants st) Dict.empty)
    as [fr|]; simpl; [|discriminate].
  destruct (orders_to_json (item_heap st) (orders st) Dict.empty) as [fo|];
    simpl; [|discriminate].
  intros _. exists fu, fo. repeat split.
Qed.

Lemma orders_to_json_entries (h : Heap.t (MenuItem num)) (os : Dict.t Order)
    (acc f : Dict.t OrderData) :
  orders_to_json h os acc = Ok f ->
  forall k d, In (k, d) f ->
    In (k, d) acc \/ exists o, In (k, o) os /\ order_to_json h o = Ok d.
Proof.
  revert acc.
  induction os as [|[k0 o0] os IH]; intros acc; simpl.
  - intros [= <-] k d Hin. now left.
  - destruct (order_to_json h o0) as [d0|ex] eqn:E; [|discriminate].
    intros Hf k d Hin.
    destruct (IH _ Hf k d Hin) as [Hacc|(o & Ho & Hd)].
    + destruct (dict_set_in _ _ _ _ _ Hacc) as [[-> ->]|Hacc'].
      * right. exists o0. split; [now left|exact E].
      * now left.
    + right. exists o. split; [now right|exact Hd].
Qed.

Lemma order_to_json_status (h : Heap.t (MenuItem num)) (o : Order)
    (d : OrderData) :
  order_to_json h o = Ok d -> od_status d = status o.
Proof.
  unfold order_to_json.
  destruct (estimate_to_json (estimated_delivery_time o)); [|discriminate].
  destruct (items_to_json h (items o)); [|discriminate].
  intros [= <-]. reflexivity.
Qed.

Lemma users_to_json_entries (st : DataStore num) (us : Dict.t URef)
    (acc f : Dict.t UserData) :
  users_to_json st us acc = Ok f ->
  forall k d, In (k, d) f ->
    In (k, d) acc \/ exists u, In (k, u) us /\ user_to_dict st u = Ok d.
Proof.
  revert acc.
  induction us as [|[k0 u0] us IH]; intros acc; simpl.
  - intros [= <-] k d Hin. now left.
  - destruct (user_to_dict st u0) as [d0|ex] eqn:E; [|discriminate].
    intros Hf k d Hin.
    destruct (IH _ Hf k d Hin) as [Hacc|(u & Hu & Hd)].
    + destruct (dict_set_in _ _ _ _ _ Hacc) as [[-> ->]|Hacc'].
      * right. exists u0. split; [now left|exact E].
      * now left.
    + right. exists u. split; [now right|exact Hd].
Qed.

Lemma orders_to_json_ok (h : Heap.t (MenuItem num)) (os : Dict.t Order)
    (acc : Dict.t OrderData) :
  is_ok (orders_to_json h os acc)
  = forallb (fun e => is_ok (order_to_json h (snd e))) os.
Proof.
  revert acc. induction os as [|[k o] os IH]; intros acc; simpl;
    [reflexivity|].
  destruct (order_to_json h o); simpl; [apply IH|reflexivity].
Qed.

Lemma users_to_json_ok (st : DataStore num) (us : Dict.t URef)
    (acc : Dict.t UserData) :
  is_ok (users_to_json st us acc)
  = forallb (fun e => is_ok (user_to_dict st (snd e))) us.
Proof.
  revert acc. induction us as [|[k u] us IH]; intros acc; simpl;
    [reflexivity|].
  destruct (user_to_dict st u); simpl; [apply IH|reflexivity].
Qed.

Lemma order_to_json_with_status (h : Heap.t (MenuItem num)) (o : Order)
    (s : OrderStatus) :
  is_ok (order_to_json h (order_with_status o s)) = is_ok (order_to_json h o).
Proof.
  unfold order_to_json. simpl.
  destruct (estimate_to_json (estimated_delivery_time o)); [|reflexivity].
  destruct (items_to_json h (items o)); reflexivity.
Qed.

Lemma user_to_dict_put_agent (st : DataStore num) (a : nat)
    (g g' : DeliveryAgent) (u : URef) :
  agent_at st a = Some g ->
  is_ok (user_to_dict
           (store_with_agent_heap st (Heap.put (agent_heap st) a g')) u)
  = is_ok (user_to_dict st u).
Proof.
  intros Hat. destruct u as [c|b|u]; simpl; [reflexivity| |reflexivity].
  destruct (Nat.eq_dec a b) as [<-|Hne].
  - rewrite (heap_get_put_same _ _ g' Hat).
    unfold agent_at in Hat. now rewrite Hat.
  - rewrite heap_get_put_other by assumption. reflexivity.
Qed.

(** *** [load_data] never raises; invariants of the reload *)

Lemma load_data_run (now : Z) (st : DataStore num) :
  load_data now st = (Ok tt, reload now st).
Proof.
  unfold reload, load_data, catch, ret.
  match goal with |- context [match ?m st with _ => _ end] =>
    destruct (m st) as [[[]|e] st'] end; reflexivity.
Qed.

Lemma for_each_inv {A : Type} (P : DataStore num -> Prop) (xs : list A)
    (body : A -> M num unit) :
  (forall x st, In x xs -> P st -> P (snd (body x st))) ->
  forall st, P st -> P (snd (for_each xs body st)).
Proof.
  induction xs as [|x xs IH]; intros Hbody st HP; simpl.
  - exact HP.
  - unfold bind.
    pose proof (Hbody x st (or_introl eq_refl) HP) as Hx.
    destruct (body x st) as [[[]|e] st']; simpl in *.
    + apply IH; [intros y s Hy; apply Hbody; now right|exact Hx].
    + exact Hx.
Qed.

Lemma for_file_inv {A : Type} (P : DataStore num -> Prop)
    (f : option (Dict.t A)) (body : string * A -> M num unit) :
  (forall es e st, f = Some es -> In e es -> P st -> P (snd (body e st))) ->
  forall st, P st -> P (snd (for_file f body st)).
Proof.
  intros Hbody st HP. destruct f as [es|]; simpl; [|exact HP].
  apply for_each_inv; auto. intros x s Hx. now apply (Hbody es).
Qed.

(** A property that every iteration of the three loading loops keeps is
    kept by the reload, whether or not it is cut short. *)
Lemma reload_inv (P : DataStore num -> Prop) (now : Z) (st : DataStore num) :
  (forall es e s, users_json st = Some es -> In e es ->
     P s -> P (snd (load_user e s))) ->
  (forall es e s, restaurants_json st = Some es -> In e es ->
     P s -> P (snd (load_restaurant e s))) ->
  (forall es e s, orders_json st = Some es -> In e es ->
     P s -> P (snd (load_order now e s))) ->
  P st -> P (reload now st).
Proof.
  intros Hu Hr Ho HP.
  unfold reload, load_data, catch, bind, read, ret.
  pose proof (@for_file_inv _ P (users_json st) (@load_user num) Hu st HP)
    as H1.
  destruct (for_file (users_json st) (@load_user num) st) as [[[]|e1] s1];
    simpl in *; [|exact H1].
  pose proof (@for_file_inv _ P (restaurants_json st) (@load_restaurant num)
                Hr s1 H1) as H2.
  destruct (for_file (restaurants_json st) (@load_restaurant num) s1)
    as [[[]|e2] s2]; simpl in *; [|exact H2].
  pose proof (@for_file_inv _ P (orders_json st) (load_order now) Ho s2 H2)
    as H3.
  destruct (for_file (orders_json st) (load_order now) s2) as [[[]|e3] s3];
    simpl in *; exact H3.
Qed.

Lemma core_fields (s s' : DataStore num) :
  core s' = core s ->
  agent_heap s' = agent_heap s /\ delivery_agents s' = delivery_agents s /\
  orders s' = orders s /\ users_json s' = users_json s /\
  orders_json s' = orders_json s.
Proof. unfold core. intros [= -> -> -> -> ->]. repeat split. Qed.

Lemma load_menu_core (es : Dict.t (ItemData num)) (menu : Dict.t nat)
    (s : DataStore num) :
  core (snd (load_menu es menu s)) = core s /\
  exists m, fst (load_menu es menu s) = Ok m.
Proof.
  revert menu s.
  induction es as [|[iid d] es IH]; intros menu s; simpl.
  - split; [reflexivity|]. now exists menu.
  - unfold bind, alloc_item. simpl.
    match goal with |- context [load_menu es ?m ?s'] =>
      destruct (IH m s') as [Hc Hm] end.
    split; [rewrite Hc; reflexivity|exact Hm].
Qed.

Lemma load_restaurant_core (e : string * RestaurantData num)
    (s : DataStore num) :
  core (snd (load_restaurant e s)) = core s.
Proof.
  destruct e as [rid data]. unfold load_restaurant, bind.
  destruct (load_menu_core (rd_menu_items data) Dict.empty s) as [Hc [m Hm]].
  destruct (load_menu (rd_menu_items data) Dict.empty s) as [r s'].
  simpl in *. subst r. unfold set_restaurant, modify. simpl. exact Hc.
Qed.

Lemma load_order_items_pure (rid : string) (es : list (string * Z))
    (s : DataStore num) :
  snd (load_order_items rid es s) = s.
Proof.
  induction es as [|[iid q] es IH]; simpl; [reflexivity|].
  unfold bind, read, lift_opt, ret, raise.
  destruct (Dict.get (restaurants s) rid) as [r|]; [|reflexivity].
  destruct (Dict.get (menu_items r) iid) as [a|]; [|reflexivity].
  destruct (load_order_items rid es s) as [[its|ex] s'];
    simpl in *; subst; reflexivity.
Qed.

(** One iteration of the loop over [orders.json] either raises and leaves
    the store as it is, or stores under the record's key an order with the
    record's status and agent. *)
Lemma load_order_step (now : Z) (e : string * OrderData) (s : DataStore num) :
  snd (load_order now e s) = s \/
  exists o,
    snd (load_order now e s) = store_with_orders s (Dict.set (orders s) (fst e) o) /\
    status o = od_status (snd e) /\
    delivery_agent_id o = od_delivery_agent_id (snd e).
Proof.
  destruct e as [oid data]. unfold load_order, bind, read.
  pose proof (load_order_items_pure (od_restaurant_id data) (od_items data) s)
    as Hp.
  destruct (load_order_items (od_restaurant_id data) (od_items data) s)
    as [[its|ex] s']; simpl in *; subst s'; [|now left].
  destruct (Order_init (item_heap s) now oid (od_customer_id data)
              (od_restaurant_id data) its (od_order_type data)) as [o|ex];
    [|now left].
  right. eexists. unfold set_order, modify. simpl.
  split; [reflexivity|]. split; reflexivity.
Qed.

(** What one iteration of the loop over [users.json] does to the pool:
    nothing, or a fresh agent object under the record's key. *)
Lemma load_user_step (e : string * UserData) (s : DataStore num) :
  orders (snd (load_user e s)) = orders s /\
  users_json (snd (load_user e s)) = users_json s /\
  orders_json (snd (load_user e s)) = orders_json s /\
  ((agent_heap (snd (load_user e s)) = agent_heap s /\
    delivery_agents (snd (load_user e s)) = delivery_agents s) \/
   (exists g,
      agent_heap (snd (load_user e s)) = agent_heap s ++ [g] /\
      delivery_agents (snd (load_user e s))
      = Dict.set (delivery_agents s) (fst e) (List.length (agent_heap s)) /\
      match snd e with
      | AgentData _ _ _ _ done => completed_deliveries g = done
      | OtherData _ _ DELIVERY_AGENT => True
      | _ => False
      end)).
Proof.
  destruct e as [uid [nm em addr hist|nm em av cur done|nm em r]]; simpl.
  - repeat split; auto.
  - repeat split; auto. right. eexists. repeat split.
  - destruct r; simpl; repeat split; auto.
    right. eexists. repeat split.
Qed.

(** The reload keeps the status and the agent of a stored order whose
    records in [orders.json], if any, agree with it on both: on a store
    that is in step with its documents, what a call sees after its reload
    is what was there before. *)
Lemma reload_keeps_order (now : Z) (st : DataStore num) (oid : string)
    (o : Order) :
  Dict.get (orders st) oid = Some o ->
  order_in_step st oid o ->
  exists o',
    Dict.get (orders (reload now st)) oid = Some o' /\
    status o' = status o /\ delivery_agent_id o' = delivery_agent_id o.
Proof.
  intros Hget Hfile.
  apply (reload_inv
           (fun s => exists o',
                Dict.get (orders s) oid = Some o' /\
                status o' = status o /\
                delivery_agent_id o' = delivery_agent_id o)).
  - intros es e s _ _ H.
    destruct (load_user_step e s) as (Ho & _). now rewrite Ho.
  - intros es e s _ _ H.
    destruct (core_fields (load_restaurant_core e s)) as (_ & _ & Ho & _).
    now rewrite Ho.
  - intros es [k d] s Hf Hin H.
    destruct (load_order_step now (k, d) s) as [->|(o1 & -> & Hst & Hag)];
      [exact H|].
    simpl in *.
    destruct (string_dec k oid) as [->|Hne].
    + exists o1. rewrite dict_get_set_same.
      destruct (Hfile es d Hf Hin) as [H1 H2].
      split; [reflexivity|]. split; congruence.
    + rewrite dict_get_set_other by congruence. exact H.
  - now exists o.
Qed.

(** The reload keeps every agent of the pool in the pool. *)
Lemma reload_keeps_agent_registered (now : Z) (st : DataStore num)
    (aid : string) :
  (exists a g, Dict.get (delivery_agents st) aid = Some a /\
               agent_at st a = Some g) ->
  exists a g, Dict.get (delivery_agents (reload now st)) aid = Some a /\
              agent_at (reload now st) a = Some g.
Proof.
  apply (reload_inv
           (fun s => exists a g, Dict.get (delivery_agents s) aid = Some a /\
                                 agent_at s a = Some g)).
  - intros es [k d] s _ _ (a & g & Hda & Hat).
    destruct (load_user_step (k, d) s) as (_ & _ & _ & Hag).
    set (s' := snd (load_user (k, d) s)) in *. clearbody s'.
    destruct Hag as [[Eh Ed]|(g' & Eh & Ed & _)].
    + exists a, g. unfold agent_at. now rewrite Eh, Ed.
    + simpl in Ed. unfold agent_at. rewrite Eh, Ed.
      destruct (string_dec k aid) as [->|Hne].
      * exists (List.length (agent_heap s)), g'.
        rewrite dict_get_set_same. split; [reflexivity|].
        apply heap_get_app_new.
      * exists a, g. rewrite dict_get_set_other by congruence.
        split; [exact Hda|]. apply agent_at_app. exact Hat.
  - intros es e s _ _ H.
    destruct (core_fields (load_restaurant_core e s)) as (Eh & Ed & _).
    unfold agent_at. now rewrite Eh, Ed.
  - intros es [k d] s _ _ H.
    destruct (load_order_step now (k, d) s) as [->|(o1 & -> & _)];
      exact H.
Qed.

(** *** Placement *)

(** C2. A delivery request made while no agent is available raises a
    [ValueError] and leaves the whole store (objects and documents: no
    order, no history entry, no restaurant entry, nothing saved) as it was;
    for a known restaurant the message is the one reserved for this case,
    which differs from every other message of [create_order]. *)
Theorem create_order_no_agent (now t r : Z) (cid rid : string)
    (sel : list (string * Z)) (st : DataStore num) :
  available_agents st = [] ->
  exists msg,
    create_order now t r cid rid sel DELIVERY st = (Raise (ValueError msg), st) /\
    (Dict.mem (restaurants st) rid = true -> msg = msg_no_available_agents) /\
    msg_no_available_agents <> msg_restaurant_not_found /\
    msg_no_available_agents <> msg_cannot_assign /\
    msg_no_available_agents <> msg_max_empty /\
    (forall iid, msg_no_available_agents <> msg_item_not_found iid).
Proof.
  intros Hnone.
  unfold create_order, bind, read.
  destruct (Dict.mem (restaurants st) rid) eqn:Hmem; simpl.
  - exists msg_no_available_agents.
    unfold check_agents, bind, read, raise. rewrite Hnone. simpl.
    repeat split; discriminate.
  - exists msg_restaurant_not_found.
    unfold raise. repeat split; discriminate.
Qed.

(** *** The delivery estimate *)

(** C7. On a stored order that is not delivered, called by the order's
    assigned agent: an input that is not a time of day raises the
    malformed-input error, a time of day before the current one raises
    another error with a different message, and in both cases the store
    (so the order and its estimate) is as before. *)
Theorem estimate_update_rejects (st : DataStore num) (now_time : time_of_day)
    (oid s aid : string) (o : Order) :
  Dict.get (orders st) oid = Some o ->
  status o <> DELIVERED ->
  delivery_agent_id o = Some aid ->
  (strptime_HM s = None ->
   update_estimated_delivery_time now_time oid s (Some aid) st
   = (Raise (ValueError msg_invalid_time), st)) /\
  (forall t, strptime_HM s = Some t -> time_ltb t now_time = true ->
   update_estimated_delivery_time now_time oid s (Some aid) st
   = (Raise (ValueError msg_time_in_past), st)) /\
  msg_invalid_time <> msg_time_in_past.
Proof.
  intros Hget Hst Hag.
  apply OrderStatus_eqb_neq in Hst.
  unfold update_estimated_delivery_time, bind, read, ret, raise.
  rewrite Hget, Hst, Hag, opt_string_eqb_refl. simpl.
  repeat split.
  - intros ->. reflexivity.
  - intros t -> ->. reflexivity.
  - discriminate.
Qed.

(** *** The duty toggle *)

(** The duty toggle refuses an agent whose [current_order] is set, and
    changes nothing. *)
Lemma toggle_refuses_busy (st : DataStore num) (aid : string) (a : nat)
    (g : DeliveryAgent) :
  Dict.get (delivery_agents st) aid = Some a ->
  agent_at st a = Some g ->
  truthy (current_order g) = true ->
  toggle_delivery_agent_duty aid st = (Ok false, st).
Proof.
  intros Hget Hat Hcur.
  unfold toggle_delivery_agent_duty, bind, read, lift_opt, ret.
  rewrite Hget, Hat. simpl. rewrite Hcur. reflexivity.
Qed.

(** Whatever it returns, the duty toggle leaves the [available] flag of
    every agent as it was: the flag it flips is [is_on_duty]. *)
Lemma toggle_keeps_available (st : DataStore num) (aid : string) :
  map available (agent_heap (snd (toggle_delivery_agent_duty aid st)))
  = map available (agent_heap st).
Proof.
  unfold toggle_delivery_agent_duty, bind, read, lift_opt, ret, raise.
  destruct (Dict.get (delivery_agents st) aid) as [a|]; [|reflexivity].
  destruct (agent_at st a) as [g|] eqn:Hat; [|reflexivity]. simpl.
  destruct (truthy (current_order g)); [reflexivity|].
  destruct (is_on_duty g); [|reflexivity].
  unfold put_agent, modify. simpl.
  now apply heap_put_map with (x := g).
Qed.

(** *** Status updates *)

Lemma complete_delivery_run (oid aid : string) (st : DataStore num) :
  complete_delivery oid aid st = (Ok tt, snd (complete_delivery oid aid st)).
Proof.
  unfold complete_delivery, bind, read, ret, put_agent, modify.
  destruct (Dict.get (delivery_agents st) aid) as [a|]; [|reflexivity].
  destruct (agent_at st a); reflexivity.
Qed.

Lemma complete_delivery_orders (oid aid : string) (st : DataStore num) :
  orders (snd (complete_delivery oid aid st)) = orders st.
Proof.
  unfold complete_delivery, bind, read, ret, put_agent, modify.
  destruct (Dict.get (delivery_agents st) aid) as [a|]; [|reflexivity].
  destruct (agent_at st a); reflexivity.
Qed.

Lemma status_written_orders (st : DataStore num) (oid : string) (o : Order)
    (ns : OrderStatus) :
  orders (status_written st oid o ns)
  = Dict.set (orders st) oid (order_with_status o ns).
Proof.
  unfold status_written.
  destruct (delivery_agent_id o) as [aid|]; [|reflexivity].
  destruct (OrderStatus_eqb ns DELIVERED && truthy (Some aid));
    [|reflexivity].
  now rewrite complete_delivery_orders.
Qed.

(** The path of [update_order_status] that returns [True]. *)
Lemma update_order_status_accepts (now : Z) (st : DataStore num)
    (oid : string) (ns : OrderStatus) (user : option string) (o : Order) :
  Dict.mem (orders st) oid = true ->
  Dict.get (orders (reload now st)) oid = Some o ->
  status o <> DELIVERED ->
  authorised user o = true ->
  update_order_status now oid ns user st
  = (Ok true, snd (save_data (status_written (reload now st) oid o ns))).
Proof.
  intros Hmem Hget Hst Hauth.
  apply OrderStatus_eqb_neq in Hst.
  unfold authorised in Hauth. apply negb_true_iff in Hauth.
  unfold update_order_status, bind, read, catch.
  rewrite Hmem. simpl. rewrite load_data_run. simpl.
  rewrite Hget. simpl. rewrite Hauth, Hst.
  unfold set_order, modify, status_written. simpl.
  destruct (delivery_agent_id o) as [aid|] eqn:Hag.
  - destruct (OrderStatus_eqb ns DELIVERED && truthy (Some aid)).
    + rewrite complete_delivery_run. simpl.
      rewrite save_data_run. reflexivity.
    + unfold ret. simpl. rewrite save_data_run. reflexivity.
  - rewrite andb_false_r. unfold ret. simpl.
    rewrite save_data_run. reflexivity.
Qed.

(** The two paths of [update_order_status] that return [False] after the
    reload. *)
Lemma update_order_status_refuses (now : Z) (st : DataStore num)
    (oid : string) (ns : OrderStatus) (user : option string) (o : Order) :
  Dict.mem (orders st) oid = true ->
  Dict.get (orders (reload now st)) oid = Some o ->
  status o = DELIVERED \/ authorised user o = false ->
  update_order_status now oid ns user st = (Ok false, reload now st).
Proof.
  intros Hmem Hget Hor.
  unfold update_order_status, bind, read, catch.
  rewrite Hmem. simpl. rewrite load_data_run. simpl.
  rewrite Hget. simpl.
  destruct (truthy user && truthy (delivery_agent_id o) &&
            negb (opt_string_eqb user (delivery_agent_id o))) eqn:Hauth;
    [reflexivity|].
  destruct Hor as [Hst|Hna].
  - rewrite Hst. reflexivity.
  - unfold authorised in Hna. rewrite Hauth in Hna. discriminate.
Qed.

(** C3 (amended). For an order that is [DELIVERED] when the call has
    reloaded the store, [update_order_status] returns [False] whatever the
    requested status and the caller, and the store is the reloaded one:
    neither the order nor any agent is written. *)
Theorem update_status_delivered_refused (now : Z) (st : DataStore num)
    (oid : string) (ns : OrderStatus) (user : option string) (o : Order) :
  Dict.mem (orders st) oid = true ->
  Dict.get (orders (reload now st)) oid = Some o ->
  status o = DELIVERED ->
  update_order_status now oid ns user st = (Ok false, reload now st).
Proof.
  intros Hmem Hget Hst.
  apply update_order_status_refuses with (o := o); auto.
Qed.

(** C10. For a stored order that is not [DELIVERED] when the call has
    reloaded the store, and a caller that passes the agent check,
    [update_order_status] returns [True] for every requested status and
    the order then has that status, its other fields being as reloaded:
    no transition is refused. *)
Theorem update_status_any_transition (now : Z) (st : DataStore num)
    (oid : string) (ns : OrderStatus) (user : option string) (o : Order) :
  Dict.mem (orders st) oid = true ->
  Dict.get (orders (reload now st)) oid = Some o ->
  status o <> DELIVERED ->
  authorised user o = true ->
  exists st',
    update_order_status now oid ns user st = (Ok true, st') /\
    Dict.get (orders st') oid = Some (order_with_status o ns) /\
    status (order_with_status o ns) = ns.
Proof.
  intros Hmem Hget Hst Hauth.
  eexists. split; [apply update_order_status_accepts with (o := o); assumption|].
  rewrite save_data_orders, status_written_orders, dict_get_set_same.
  split; reflexivity.
Qed.

(** On a store in step with its document, the two theorems above read on
    the stored order itself. *)
Corollary update_status_in_step (now : Z) (st : DataStore num)
    (oid : string) (ns : OrderStatus) (user : option string) (o : Order) :
  Dict.get (orders st) oid = Some o ->
  order_in_step st oid o ->
  (status o = DELIVERED ->
   update_order_status now oid ns user st = (Ok false, reload now st)) /\
  (status o <> DELIVERED -> authorised user o = true ->
   exists st' o',
     update_order_status now oid ns user st = (Ok true, st') /\
     Dict.get (orders st') oid = Some o' /\ status o' = ns).
Proof.
  intros Hget Hstep.
  destruct (reload_keeps_order now Hget Hstep) as (o1 & Hget1 & Hst1 & Hag1).
  assert (Hmem : Dict.mem (orders st) oid = true).
  { apply dict_mem_get. now exists o. }
  split.
  - intros Hd. apply update_order_status_refuses with (o := o1); auto.
    left. congruence.
  - intros Hnd Hauth.
    exists (snd (save_data (status_written (reload now st) oid o1 ns))).
    exists (order_with_status o1 ns).
    split.
    + apply update_order_status_accepts; auto; [congruence|].
      unfold authorised in *. now rewrite Hag1.
    + rewrite save_data_orders, status_written_orders, dict_get_set_same.
      split; reflexivity.
Qed.


(** *** Cancellation *)

(** [cancel_order] after its reload, on the order [o] it finds. *)
Lemma cancel_order_run (now : Z) (st : DataStore num) (oid : string)
    (o : Order) :
  Dict.get (orders (reload now st)) oid = Some o ->
  cancel_order now oid st
  = if cancellable (status o)
    then
      let st1 := store_with_orders (reload now st)
                   (Dict.set (orders (reload now st)) oid
                      (order_with_status o CANCELLED)) in
      match delivery_agent_id o with
      | Some aid =>
          if truthy (Some aid)
          then
            match Dict.get (delivery_agents (reload now st)) aid with
            | Some a =>
                match agent_at (reload now st) a with
                | Some g =>
                    (Ok true,
                     snd (save_data
                            (store_with_agent_heap st1
                               (Heap.put (agent_heap (reload now st)) a
                                  (agent_with g true None
                                     (completed_deliveries g))))))
                | None => (Ok false, st1)
                end
            | None => (Ok false, st1)
            end
          else (Ok true, snd (save_data st1))
      | None => (Ok true, snd (save_data st1))
      end
    else (Ok false, reload now st).
Proof.
  intros Hget.
  unfold cancel_order, catch, bind, read.
  rewrite load_data_run. simpl. rewrite Hget. simpl.
  fold (cancellable (status o)).
  destruct (cancellable (status o)); [|reflexivity].
  unfold set_order, modify. simpl.
  destruct (delivery_agent_id o) as [aid|]; simpl.
  2:{ rewrite save_data_run. reflexivity. }
  destruct (negb (String.eqb aid EmptyString)); simpl.
  2:{ rewrite save_data_run. reflexivity. }
  unfold lift_opt.
  destruct (Dict.get (delivery_agents (reload now st)) aid) as [a|]; simpl;
    [|reflexivity].
  unfold agent_at. simpl.
  destruct (Heap.get (agent_heap (reload now st)) a) as [g|]; simpl;
    [|reflexivity].
  unfold put_agent, modify. simpl. rewrite save_data_run. reflexivity.
Qed.

(** C5 (amended). For the order [o] that [cancel_order] finds after its
    reload: the call returns [True] exactly when the status of [o] is
    [PLACED] or [PREPARING] and the agent on the order, if there is one,
    is an agent of the pool; the stored order then has the status
    [CANCELLED] and that agent is available with no current order.  In
    any other status the call returns [False] and the store is the
    reloaded one.  With the status [PLACED] or [PREPARING] and an agent
    that is not in the pool the call returns [False] as well, after it
    has set the order in memory to [CANCELLED]. *)
Theorem cancel_order_spec (now : Z) (st : DataStore num) (oid : string)
    (o : Order) :
  Dict.get (orders (reload now st)) oid = Some o ->
  (fst (cancel_order now oid st) = Ok true <->
   (status o = PLACED \/ status o = PREPARING) /\
   (forall aid, delivery_agent_id o = Some aid -> aid <> EmptyString ->
      exists a g,
        Dict.get (delivery_agents (reload now st)) aid = Some a /\
        agent_at (reload now st) a = Some g)) /\
  (fst (cancel_order now oid st) = Ok true ->
   exists o',
     Dict.get (orders (snd (cancel_order now oid st))) oid = Some o' /\
     status o' = CANCELLED /\
     o' = order_with_status o CANCELLED /\
     forall aid, delivery_agent_id o = Some aid -> aid <> EmptyString ->
       exists a g,
         Dict.get (delivery_agents (snd (cancel_order now oid st))) aid
         = Some a /\
         agent_at (snd (cancel_order now oid st)) a = Some g /\
         available g = true /\ current_order g = None) /\
  (~ (status o = PLACED \/ status o = PREPARING) ->
   cancel_order now oid st = (Ok false, reload now st)) /\
  (status o = PLACED \/ status o = PREPARING ->
   fst (cancel_order now oid st) <> Ok true ->
   exists o',
     cancel_order now oid st
     = (Ok false,
        store_with_orders (reload now st)
          (Dict.set (orders (reload now st)) oid o')) /\
     status o' = CANCELLED /\ o' = order_with_status o CANCELLED).
Proof.
  intros Hget.
  rewrite <- cancellable_iff.
  rewrite (@cancel_order_run now st oid o Hget).
  destruct (cancellable (status o)) eqn:Hc.
  2:{ simpl. split; [split; [discriminate|intros [H _]; discriminate]|].
      split; [discriminate|]. split; [reflexivity|discriminate]. }
  cbv zeta.
  destruct (delivery_agent_id o) as [aid|] eqn:Hag.
  2:{ simpl. split; [split; [intros _; split; [reflexivity|discriminate]
                            |reflexivity]|].
      split.
      { intros _. eexists. rewrite save_data_orders. simpl.
        split; [apply dict_get_set_same|].
        split; [reflexivity|]. split; [reflexivity|discriminate]. }
      split; [intros H; now elim H|]. intros _ H. now elim H. }
  destruct (truthy (Some aid)) eqn:Htr.
  2:{ assert (Haid : aid = EmptyString).
      { simpl in Htr. apply negb_false_iff in Htr.
        now apply String.eqb_eq in Htr. }
      simpl.
      split.
      { split; [|reflexivity]. intros _. split; [reflexivity|].
        intros aid' [= <-] Hne. contradiction. }
      split.
      { intros _. eexists. rewrite save_data_orders. simpl.
        split; [apply dict_get_set_same|].
        split; [reflexivity|]. split; [reflexivity|].
        intros aid' [= <-] Hne. contradiction. }
      split; [intros H; now elim H|]. intros _ H. now elim H. }
  assert (Hne : aid <> EmptyString).
  { simpl in Htr. apply negb_true_iff in Htr.
    now apply String.eqb_neq in Htr. }
  destruct (Dict.get (delivery_agents (reload now st)) aid) as [a|] eqn:Hda.
  2:{ simpl.
      split.
      { split; [discriminate|]. intros [_ H].
        destruct (H aid eq_refl Hne) as (a & g & Ha & _). congruence. }
      split; [discriminate|].
      split; [intros H; now elim H|].
      intros _ _. eexists. split; [reflexivity|]. split; reflexivity. }
  destruct (agent_at (reload now st) a) as [g|] eqn:Hat.
  2:{ simpl.
      split.
      { split; [discriminate|]. intros [_ H].
        destruct (H aid eq_refl Hne) as (a' & g & Ha & Hg).
        congruence. }
      split; [discriminate|].
      split; [intros H; now elim H|].
      intros _ _. eexists. split; [reflexivity|]. split; reflexivity. }
  simpl.
  split.
  { split; [|reflexivity]. intros _. split; [reflexivity|].
    intros aid' [= <-] _. now exists a, g. }
  split.
  { intros _. eexists. rewrite save_data_orders. simpl.
    split; [apply dict_get_set_same|].
    split; [reflexivity|]. split; [reflexivity|].
    intros aid' [= <-] _. exists a. eexists.
    rewrite save_data_delivery_agents. simpl.
    split; [exact Hda|].
    unfold agent_at in *. rewrite save_data_agent_heap. simpl.
    split; [eapply heap_get_put_same; exact Hat|].
    split; reflexivity. }
  split; [intros H; now elim H|]. intros _ H. now elim H.
Qed.

(** *** Delivering twice *)

Lemma delivered_state_core (oid aid : string) (s s' : DataStore num) :
  core s' = core s -> delivered_state oid aid s -> delivered_state oid aid s'.
Proof.
  intros Hc [H1 H2 H3 H4].
  destruct (core_fields Hc) as (Ea & Ed & Eo & Eu & Ej).
  constructor; unfold agent_at; rewrite ?Ea, ?Ed, ?Eo, ?Eu, ?Ej; auto.
Qed.

(** The reload keeps a delivered-and-saved order delivered, and its
    agent's completed list as it is. *)
Lemma reload_delivered_state (now : Z) (oid aid : string)
    (st : DataStore num) :
  delivered_state oid aid st -> delivered_state oid aid (reload now st).
Proof.
  intros Hds.
  cut (users_json (reload now st) = users_json st /\
       orders_json (reload now st) = orders_json st /\
       delivered_state oid aid (reload now st)); [tauto|].
  apply (reload_inv
           (fun s => users_json s = users_json st /\
                     orders_json s = orders_json st /\
                     delivered_state oid aid s)); [| | |auto].
  - (* users *)
    intros es [k d] s Hf Hin (Eu & Eo & [H1 H2 H3 H4]).
    destruct (load_user_step (k, d) s) as (Ho & Hu & Hj & Hag).
    set (s' := snd (load_user (k, d) s)) in *. clearbody s'.
    rewrite Hu, Hj. split; [auto|]. split; [auto|].
    constructor.
    + rewrite Ho. exact H1.
    + rewrite Hj. exact H2.
    + destruct H3 as (a & g & Hda & Hat & Hocc).
      destruct Hag as [[Eh Ed]|(g' & Eh & Ed & Hrec)].
      * exists a, g. unfold agent_at. rewrite Eh, Ed. auto.
      * simpl in Ed, Hrec.
        destruct (string_dec k aid) as [->|Hne].
        -- exists (List.length (agent_heap s)), g'.
           unfold agent_at. rewrite Eh, Ed, dict_get_set_same.
           split; [reflexivity|]. split; [apply heap_get_app_new|].
           assert (Hok : record_completed_once oid d).
           { apply (H4 es); [congruence|exact Hin]. }
           destruct d as [| ? ? ? ? done | ? ? r]; simpl in *;
             [contradiction|congruence|].
           destruct r; contradiction.
        -- exists a, g.
           unfold agent_at. rewrite Eh, Ed.
           rewrite dict_get_set_other by congruence.
           split; [exact Hda|]. split; [|exact Hocc].
           apply agent_at_app. exact Hat.
    + rewrite Hu. exact H4.
  - (* restaurants *)
    intros es e s Hf Hin (Eu & Eo & Hs).
    pose proof (load_restaurant_core e s) as Hc.
    destruct (core_fields Hc) as (_ & _ & _ & Hu & Hj).
    rewrite Hu, Hj. split; [auto|]. split; [auto|].
    now apply (delivered_state_core Hc).
  - (* orders *)
    intros es [k d] s Hf Hin (Eu & Eo & [H1 H2 H3 H4]).
    destruct (load_order_step now (k, d) s) as [->|(o & -> & Hst & _)];
      [split; [auto|]; split; [auto|]; now constructor|].
    simpl in *. split; [auto|]. split; [auto|].
    constructor; simpl; auto.
    destruct (string_dec k oid) as [->|Hne].
    + exists o. rewrite dict_get_set_same. split; [reflexivity|].
      rewrite Hst. apply (H2 es); [congruence|exact Hin].
    + rewrite dict_get_set_other by congruence. exact H1.
Qed.

(** The store after the bookkeeping of a first delivery by agent [aid],
    whose object is at [a]. *)
Lemma status_written_delivered (st : DataStore num) (oid aid : string)
    (o : Order) (a : nat) (g : DeliveryAgent) :
  delivery_agent_id o = Some aid -> truthy (Some aid) = true ->
  Dict.get (delivery_agents st) aid = Some a ->
  agent_at st a = Some g ->
  current_order g = Some oid ->
  in_list oid (completed_deliveries g) = false ->
  status_written st oid o DELIVERED
  = store_with_agent_heap
      (store_with_orders st
         (Dict.set (orders st) oid (order_with_status o DELIVERED)))
      (Heap.put (agent_heap st) a
         (agent_with g true None (completed_deliveries g ++ [oid]))).
Proof.
  intros Hag Htr Hda Hat Hcur Hin.
  unfold status_written. rewrite Hag, Htr. simpl.
  unfold complete_delivery, bind, read, put_agent, modify. simpl.
  rewrite Hda. unfold agent_at in *. simpl. rewrite Hat.
  rewrite Hcur, Hin. simpl. rewrite String.eqb_refl. reflexivity.
Qed.

Lemma writable_after_delivery (st : DataStore num) (oid : string)
    (o : Order) (a : nat) (g g' : DeliveryAgent) :
  Dict.get (orders st) oid = Some o ->
  agent_at st a = Some g ->
  writable st = true ->
  writable
    (store_with_agent_heap
       (store_with_orders st
          (Dict.set (orders st) oid (order_with_status o DELIVERED)))
       (Heap.put (agent_heap st) a g')) = true.
Proof.
  intros Hget Hat Hw. unfold writable in *. simpl.
  apply andb_true_iff in Hw as [Hw Ho].
  apply andb_true_iff in Hw as [Hu Hr].
  rewrite Hr, andb_true_r.
  rewrite orders_to_json_ok in *. rewrite users_to_json_ok in *.
  apply andb_true_iff. split.
  - apply forallb_forall. intros [k u] Hin. simpl.
    rewrite forallb_forall in Hu. specialize (Hu _ Hin). simpl in Hu.
    rewrite <- Hu.
    set (so := store_with_orders st
                 (Dict.set (orders st) oid (order_with_status o DELIVERED))).
    transitivity (is_ok (user_to_dict so u)); [|destruct u; reflexivity].
    apply (@user_to_dict_put_agent so a g g' u). exact Hat.
  - apply dict_set_forallb; [exact Ho|]. simpl.
    rewrite order_to_json_with_status.
    rewrite forallb_forall in Ho.
    apply (Ho (oid, o)). now apply in_dict_get.
Qed.

(** The first delivery of an order by its agent, saved in full, leads to
    [delivered_state]. *)
Lemma first_delivery_state (st : DataStore num) (oid aid : string)
    (o : Order) (a : nat) (g : DeliveryAgent) :
  Dict.get (orders st) oid = Some o ->
  delivery_agent_id o = Some aid -> truthy (Some aid) = true ->
  Dict.get (delivery_agents st) aid = Some a ->
  agent_at st a = Some g ->
  current_order g = Some oid ->
  in_list oid (completed_deliveries g) = false ->
  NoDup (Dict.keys (orders st)) ->
  NoDup (Dict.keys (users st)) ->
  Dict.get (users st) aid = Some (UAgent a) ->
  writable st = true ->
  delivered_state oid aid
    (snd (save_data (status_written st oid o DELIVERED))) /\
  Dict.get
    (delivery_agents (snd (save_data (status_written st oid o DELIVERED))))
    aid = Some a /\
  agent_at (snd (save_data (status_written st oid o DELIVERED))) a
  = Some (agent_with g true None (completed_deliveries g ++ [oid])).
Proof.
  intros Hget Hag Htr Hda Hat Hcur Hin Hno Hnu Hua Hw.
  rewrite (@status_written_delivered st oid aid o a g Hag Htr Hda Hat Hcur Hin).
  set (g' := agent_with g true None (completed_deliveries g ++ [oid])).
  set (o' := order_with_status o DELIVERED).
  set (sw := store_with_agent_heap
               (store_with_orders st (Dict.set (orders st) oid o'))
               (Heap.put (agent_heap st) a g')).
  assert (Hat' : agent_at (snd (save_data sw)) a = Some g').
  { unfold agent_at. rewrite save_data_agent_heap. simpl.
    eapply heap_get_put_same. exact Hat. }
  assert (Hda' : Dict.get (delivery_agents (snd (save_data sw))) aid = Some a).
  { rewrite save_data_delivery_agents. exact Hda. }
  split; [|split; assumption].
  destruct (@save_data_writes sw) as (fu & fo & Hfu & Hfo & Hju & Hjo).
  { exact (@writable_after_delivery st oid o a g g' Hget Hat Hw). }
  constructor.
  - exists o'. rewrite save_data_orders. simpl.
    split; [apply dict_get_set_same|reflexivity].
  - intros f d Hf Hd. rewrite Hjo in Hf. injection Hf as <-.
    destruct (@orders_to_json_entries _ _ _ _ Hfo _ _ Hd)
      as [[]|(o1 & Ho1 & Hd1)].
    rewrite (@order_to_json_status _ _ _ Hd1).
    simpl in Ho1. apply dict_set_in_unique in Ho1; [|exact Hno].
    subst o1. reflexivity.
  - exists a, g'. split; [exact Hda'|]. split; [exact Hat'|].
    simpl. now apply occurrences_appended.
  - intros f d Hf Hd. rewrite Hju in Hf. injection Hf as <-.
    destruct (@users_to_json_entries _ _ _ _ Hfu _ _ Hd)
      as [[]|(u & Hu & Hd1)].
    simpl in Hu.
    rewrite (@dict_unique_get _ _ _ _ Hnu Hu) in Hua. injection Hua as ->.
    simpl in Hd1.
    rewrite (@heap_get_put_same _ _ _ _ g' Hat) in Hd1.
    injection Hd1 as <-. simpl. now apply occurrences_appended.
Qed.

Lemma delivered_state_refuses (oid aid : string) (st : DataStore num)
    (now : Z) (ns : OrderStatus) (user : option string) :
  delivered_state oid aid st ->
  update_order_status now oid ns user st = (Ok false, reload now st).
Proof.
  intros Hds.
  pose proof (reload_delivered_state now Hds) as [(o & Hget & Hst) _ _ _].
  destruct Hds as [(o0 & Hget0 & _) _ _ _].
  apply update_order_status_refuses with (o := o); auto.
  apply dict_mem_get. now exists o0.
Qed.

Lemma repeat_update_delivered (oid aid : string) (ns : OrderStatus)
    (user : option string) (nows : list Z) (st : DataStore num) :
  delivered_state oid aid st ->
  Forall (eq (Ok false)) (fst (repeat_update_status nows oid ns user st)) /\
  delivered_state oid aid (snd (repeat_update_status nows oid ns user st)).
Proof.
  revert st. induction nows as [|now nows IH]; intros st Hds; simpl.
  - split; [constructor|exact Hds].
  - rewrite (delivered_state_refuses now ns user Hds).
    destruct (IH (reload now st) (reload_delivered_state now Hds))
      as [Hall Hds'].
    destruct (repeat_update_status nows oid ns user (reload now st))
      as [rs st'']. simpl in *.
    split; [constructor; [reflexivity|exact Hall]|exact Hds'].
Qed.

(** C4 (amended). A delivery order that is not yet delivered, assigned to
    an agent of the pool whose current order it is and whose completed
    list does not hold it, in a store that [save_data] can write in full
    and whose dictionaries have unique keys (all of this as the call sees
    it after its reload).  The first [update_order_status(oid, DELIVERED)] returns
    [True], leaves the agent available, without current order and with
    the order id appended to the completed list; the second call returns
    [False]; and after any number of further such calls every one of them
    has returned [False] and the agent's completed list holds the id
    exactly once. *)
Theorem deliver_twice (now : Z) (st : DataStore num) (oid aid : string)
    (user : option string) (o : Order) (a : nat) (g : DeliveryAgent) :
  Dict.mem (orders st) oid = true ->
  Dict.get (orders (reload now st)) oid = Some o ->
  order_type o = DELIVERY ->
  status o <> DELIVERED ->
  delivery_agent_id o = Some aid -> truthy (Some aid) = true ->
  authorised user o = true ->
  Dict.get (delivery_agents (reload now st)) aid = Some a ->
  agent_at (reload now st) a = Some g ->
  current_order g = Some oid ->
  in_list oid (completed_deliveries g) = false ->
  NoDup (Dict.keys (orders (reload now st))) ->
  NoDup (Dict.keys (users (reload now st))) ->
  Dict.get (users (reload now st)) aid = Some (UAgent a) ->
  writable (reload now st) = true ->
  exists st2,
    update_order_status now oid DELIVERED user st = (Ok true, st2) /\
    (exists g2,
        Dict.get (delivery_agents st2) aid = Some a /\
        agent_at st2 a = Some g2 /\
        available g2 = true /\ current_order g2 = None /\
        completed_deliveries g2 = completed_deliveries g ++ [oid]) /\
    (forall now2,
        fst (update_order_status now2 oid DELIVERED user st2) = Ok false) /\
    (forall nows,
        Forall (eq (Ok false))
          (fst (repeat_update_status nows oid DELIVERED user st2)) /\
        exists a3 g3,
          Dict.get
            (delivery_agents
               (snd (repeat_update_status nows oid DELIVERED user st2)))
            aid = Some a3 /\
          agent_at (snd (repeat_update_status nows oid DELIVERED user st2)) a3
          = Some g3 /\
          occurrences oid (completed_deliveries g3) = 1%nat).
Proof.
  intros Hmem Hget Hty Hst Hag Htr Hauth Hda Hat Hcur Hin Hno Hnu Hua Hw.
  destruct (@first_delivery_state (reload now st) oid aid o a g
              Hget Hag Htr Hda Hat Hcur Hin Hno Hnu Hua Hw)
    as (Hds & Hda2 & Hat2).
  eexists. split.
  { apply update_order_status_accepts with (o := o); assumption. }
  split.
  { eexists. split; [exact Hda2|]. split; [exact Hat2|].
    repeat split. }
  split.
  { intros now2. now rewrite (delivered_state_refuses now2 DELIVERED user Hds). }
  intros nows.
  destruct (repeat_update_delivered DELIVERED user nows Hds) as [Hall Hds3].
  split; [exact Hall|].
  destruct Hds3 as [_ _ (a3 & g3 & H3) _]. now exists a3, g3.
Qed.

(** *** Totals *)

Section Totals.

Variable num_zero : num.
Variable num_add : num -> num -> num.
Variable num_scale : num -> Z -> num.

Lemma sum_prices_fold (h : Heap.t (MenuItem num)) (its : list OrderItem)
    (ps : list num) (acc : num) :
  line_prices h its = Some ps ->
  sum_prices num_add num_scale h its acc
  = Some (fold_left num_add
            (map (fun pq => num_scale (fst pq) (snd pq))
               (combine ps (map quantity its))) acc).
Proof.
  revert ps acc.
  induction its as [|it its IH]; intros ps acc; simpl.
  - intros [= <-]. reflexivity.
  - unfold item_total_price.
    destruct (Heap.get h (menu_item it)) as [m|]; [|discriminate].
    destruct (line_prices h its) as [ps'|]; [|discriminate].
    intros [= <-]. simpl. now apply IH.
Qed.

(** C1 (amended). The total of an order is the sum, over its lines, of the
    price the referenced catalog item has now times the quantity; it is
    the same in any two catalogs that give the referenced items the same
    prices, so it keeps its value at placement for as long as those prices
    are not edited. *)
Theorem total_price_reads_catalog (h : Heap.t (MenuItem num)) (o : Order)
    (ps : list num) :
  line_prices h (items o) = Some ps ->
  get_total_price num_zero num_add num_scale h o
  = Some (priced_total num_zero num_add num_scale ps
            (map quantity (items o))) /\
  (forall h' : Heap.t (MenuItem num),
      line_prices h' (items o) = Some ps ->
      get_total_price num_zero num_add num_scale h' o
      = get_total_price num_zero num_add num_scale h o).
Proof.
  intros Hps. unfold get_total_price, priced_total.
  split.
  - now apply sum_prices_fold.
  - intros h' Hps'.
    rewrite (sum_prices_fold h' _ _ Hps'), (sum_prices_fold h _ _ Hps).
    reflexivity.
Qed.

End Totals.

End Properties.

(** ** Sample evaluations *)

Example strptime_HM_samples :
  strptime_HM "9:5" = Some (mkTime 9 5 0 0) /\
  strptime_HM "23:59" = Some (mkTime 23 59 0 0) /\
  strptime_HM "24:00" = None /\
  strptime_HM "12:60" = None /\
  strptime_HM "012:30" = None /\
  strptime_HM "-30" = None.
Proof. repeat split; reflexivity. Qed.

Example make_order_id_sample :
  make_order_id 1700000000 1234 = "order-1700000000-1234".
Proof. reflexivity. Qed.

Example demo_placement_result :
  option_map available (agent_named demo_placed "A1") = Some false /\
  option_map current_order (agent_named demo_placed "A1")
  = Some (Some demo_oid) /\
  status_of demo_placed demo_oid = Some PLACED /\
  total_of demo_placed demo_oid = Some 20 /\
  toggle_delivery_agent_duty "A1" demo_placed = (Ok false, demo_placed).
Proof. repeat split; vm_compute; reflexivity. Qed.


(** ** The properties on the concrete store *)

Lemma order_init_estimates_witness :
  exists o,
    Order_init demo_catalog 1000 "o1" "C1" "R1"
      [mkOrderItem 0 2; mkOrderItem 1 1] DELIVERY = Ok o /\
    placed_time o = 1000 /\
    estimated_ready_time o = 1200001000 /\
    estimated_delivery_time o = EstimateAt 2100001000.
Proof.
  destruct (@order_init_estimates Z demo_catalog 1000 "o1" "C1" "R1"
              [mkOrderItem 0 2; mkOrderItem 1 1] DELIVERY)
    as (o & it & m & Hinit & Hin & Hm & Hmax & Hplaced & Hready & Hdel & _).
  - discriminate.
  - intros it [<-|[<-|[]]]; eexists; reflexivity.
  - assert (Hp : prep_time m = 20).
    { pose proof (Hmax (mkOrderItem 1 1) _ (or_intror (or_introl eq_refl))
                    eq_refl) as Hle.
      destruct Hin as [<-|[<-|[]]]; injection Hm as <-; simpl in *;
        [lia|reflexivity]. }
    exists o. split; [exact Hinit|]. split; [exact Hplaced|].
    rewrite Hp in Hready, Hdel.
    split; [exact Hready|]. exact (Hdel eq_refl).
Defined.

Lemma estimate_update_rejects_witness :
  update_estimated_delivery_time noon demo_oid "-30" (Some "A1") demo_placed
  = (Raise (ValueError msg_invalid_time), demo_placed) /\
  update_estimated_delivery_time noon demo_oid "09:30" (Some "A1") demo_placed
  = (Raise (ValueError msg_time_in_past), demo_placed).
Proof.
  assert (Hget : exists o, Dict.get (orders demo_placed) demo_oid = Some o /\
                           status o <> DELIVERED /\
                           delivery_agent_id o = Some "A1").
  { eexists. split; [vm_compute; reflexivity|].
    split; [discriminate|reflexivity]. }
  destruct Hget as (o & Hget & Hst & Hag).
  split.
  - destruct (@estimate_update_rejects Z demo_placed noon demo_oid "-30" "A1"
                o Hget Hst Hag) as (H & _ & _).
    apply H. reflexivity.
  - destruct (@estimate_update_rejects Z demo_placed noon demo_oid "09:30"
                "A1" o Hget Hst Hag) as (_ & H & _).
    apply (H (mkTime 9 30 0 0)); reflexivity.
Defined.

Lemma create_order_no_agent_witness :
  available_agents demo_placed = [] /\
  exists msg,
    create_order 3000 1700000060 5678 "C1" "R1" [("P1", 1)] DELIVERY
      demo_placed
    = (Raise (ValueError msg), demo_placed) /\
    (Dict.mem (restaurants demo_placed) "R1" = true ->
     msg = msg_no_available_agents) /\
    msg_no_available_agents <> msg_restaurant_not_found /\
    msg_no_available_agents <> msg_cannot_assign /\
    msg_no_available_agents <> msg_max_empty /\
    (forall iid, msg_no_available_agents <> msg_item_not_found iid).
Proof.
  assert (H : available_agents demo_placed = []) by (vm_compute; reflexivity).
  split; [exact H|].
  apply (@create_order_no_agent Z 3000 1700000060 5678 "C1" "R1"
           [("P1", 1)] demo_placed H).
Defined.

(** The order placed on the concrete store costs 20; once the price of
    the catalog item [P1] is set to 20 the same order costs 40, in memory
    and again after a save and a reload. *)
Lemma total_price_follows_catalog :
  total_of demo_placed demo_oid = Some 20 /\
  total_of demo_repriced demo_oid = Some 40 /\
  total_of demo_repriced_reloaded demo_oid = Some 40.
Proof. repeat split; vm_compute; reflexivity. Qed.

Lemma total_price_reads_catalog_witness :
  exists o,
    fst demo_placement = Ok (Some o) /\
    line_prices (item_heap demo_placed) (items o) = Some [10] /\
    total_Z (item_heap demo_placed) o
    = Some (priced_total 0 Z.add Z.mul [10] (map quantity (items o))) /\
    (forall h' : Heap.t (MenuItem Z),
        line_prices h' (items o) = Some [10] ->
        total_Z h' o = total_Z (item_heap demo_placed) o).
Proof.
  eexists. split; [vm_compute; reflexivity|].
  assert (H : line_prices (item_heap demo_placed) [mkOrderItem 1 2]
              = Some [10]) by (vm_compute; reflexivity).
  split; [exact H|].
  exact (@total_price_reads_catalog Z 0 Z.add Z.mul (item_heap demo_placed)
           (mkOrder "order-1700000000-1234" "C1" "R1" [mkOrderItem 1 2]
              DELIVERY PLACED (Some "A1") 1000 900001000
              (EstimateAt 1800001000))
           [10] H).
Defined.

(** C6. On an agent as [DeliveryAgent.__init__] builds it, with no current
    order, the duty toggle raises [AttributeError] for [is_on_duty]: it
    neither returns [True] nor flips [available]. *)
Theorem toggle_duty_fresh_agent_raises :
  agent_named demo_store "A1"
  = Some (mkAgent "A1" "Ann" "ann@example.com" true None [] None) /\
  toggle_delivery_agent_duty "A1" demo_store
  = (Raise (AttributeError "is_on_duty"), demo_store).
Proof. split; vm_compute; reflexivity. Qed.

(** C8. Place a delivery order, cancel it, place a second delivery order
    (the freed agent gets it), then mark the first order as delivered:
    every call succeeds, the pool satisfied the invariant before the last
    call, and after it the agent is available while its current order is
    the second one. *)
Theorem stale_delivery_breaks_pool_invariant :
  is_ok (fst demo_placement) = true /\
  fst (cancel_order 2000 demo_oid demo_placed) = Ok true /\
  is_ok (fst (create_order 3000 1700000060 5678 "C1" "R1" [("P1", 1)]
                DELIVERY demo_cancelled)) = true /\
  pool_ok demo_second_placed = true /\
  fst demo_stale_delivery = Ok true /\
  option_map available (agent_named (snd demo_stale_delivery) "A1")
  = Some true /\
  option_map current_order (agent_named (snd demo_stale_delivery) "A1")
  = Some (Some demo_oid2) /\
  pool_ok (snd demo_stale_delivery) = false.
Proof. repeat split; vm_compute; reflexivity. Qed.

(** A cancelled order is moved back to [PREPARING]: the call returns
    [True] and the status is written. *)
Lemma cancelled_order_can_be_updated :
  status_of demo_cancelled demo_oid = Some CANCELLED /\
  fst (update_order_status 3000 demo_oid PREPARING None demo_cancelled)
  = Ok true /\
  status_of
    (snd (update_order_status 3000 demo_oid PREPARING None demo_cancelled))
    demo_oid
  = Some PREPARING.
Proof. repeat split; vm_compute; reflexivity. Qed.

Lemma update_status_delivered_refused_witness :
  status_of (reload 3000 demo_delivered) demo_oid = Some DELIVERED /\
  update_order_status 3000 demo_oid PREPARING None demo_delivered
  = (Ok false, reload 3000 demo_delivered).
Proof.
  split; [vm_compute; reflexivity|].
  eapply (@update_status_delivered_refused Z 3000 demo_delivered demo_oid
            PREPARING None).
  - vm_compute; reflexivity.
  - vm_compute; reflexivity.
  - reflexivity.
Defined.

Lemma update_status_any_transition_witness :
  exists st' o,
    Dict.get (orders (reload 2000 demo_placed)) demo_oid = Some o /\
    status o = PLACED /\
    update_order_status 2000 demo_oid DELIVERED None demo_placed
    = (Ok true, st') /\
    Dict.get (orders st') demo_oid = Some (order_with_status o DELIVERED) /\
    status (order_with_status o DELIVERED) = DELIVERED.
Proof.
  assert (Hget : exists o,
             Dict.get (orders (reload 2000 demo_placed)) demo_oid = Some o /\
             status o = PLACED /\ authorised None o = true).
  { eexists. split; [vm_compute; reflexivity|]. split; reflexivity. }
  destruct Hget as (o & Hget & Hst & Hauth).
  assert (Hmem : Dict.mem (orders demo_placed) demo_oid = true)
    by (vm_compute; reflexivity).
  assert (Hnd : status o <> DELIVERED) by (rewrite Hst; discriminate).
  destruct (@update_status_any_transition Z 2000 demo_placed demo_oid
              DELIVERED None o Hmem Hget Hnd Hauth) as (st' & H1 & H2 & H3).
  exists st', o. repeat split; assumption.
Defined.

Lemma cancel_order_spec_witness :
  exists o o',
    Dict.get (orders (reload 2000 demo_placed)) demo_oid = Some o /\
    status o = PLACED /\ delivery_agent_id o = Some "A1" /\
    fst (cancel_order 2000 demo_oid demo_placed) = Ok true /\
    Dict.get (orders demo_cancelled) demo_oid = Some o' /\
    status o' = CANCELLED /\
    exists a g,
      Dict.get (delivery_agents demo_cancelled) "A1" = Some a /\
      agent_at demo_cancelled a = Some g /\
      available g = true /\ current_order g = None.
Proof.
  assert (Hget : exists o,
             Dict.get (orders (reload 2000 demo_placed)) demo_oid = Some o /\
             status o = PLACED /\ delivery_agent_id o = Some "A1").
  { eexists. split; [vm_compute; reflexivity|]. split; reflexivity. }
  destruct Hget as (o & Hget & Hst & Hag).
  assert (Hreg : forall aid, delivery_agent_id o = Some aid ->
             aid <> EmptyString ->
             exists a g,
               Dict.get (delivery_agents (reload 2000 demo_placed)) aid
               = Some a /\
               agent_at (reload 2000 demo_placed) a = Some g).
  { intros aid Haid _. rewrite Hag in Haid. injection Haid as <-.
    eexists. eexists. split; vm_compute; reflexivity. }
  destruct (@cancel_order_spec Z 2000 demo_placed demo_oid o Hget)
    as (Hiff & Hsucc & _).
  assert (Htrue : fst (cancel_order 2000 demo_oid demo_placed) = Ok true).
  { apply Hiff. split; [left; exact Hst|exact Hreg]. }
  destruct (Hsucc Htrue) as (o' & Hord & Hst' & _ & Hagent).
  exists o, o'. repeat split; try assumption.
  apply (Hagent "A1" Hag). discriminate.
Defined.

(** The first order of the concrete store is cancelled, its agent [A1],
    free again, is removed by the manager, and the order is set back to
    [PLACED] (and saved).  [cancel_order] on this [PLACED] order returns
    [False]: the agent on the order is no longer in [delivery_agents].
    The order is then [CANCELLED] in memory and [PLACED] in
    [orders.json]. *)
Lemma cancel_placed_order_refused :
  fst (cancel_order 2000 demo_oid demo_placed) = Ok true /\
  fst demo_agent_removed = Ok (true, Dict.empty) /\
  agent_named (snd demo_agent_removed) "A1" = None /\
  fst demo_placed_again = Ok true /\
  status_of (snd demo_placed_again) demo_oid = Some PLACED /\
  saved_status_of (snd demo_placed_again) demo_oid = Some PLACED /\
  status_of (reload 4000 (snd demo_placed_again)) demo_oid = Some PLACED /\
  option_map delivery_agent_id
    (Dict.get (orders (reload 4000 (snd demo_placed_again))) demo_oid)
  = Some (Some "A1") /\
  fst demo_cancel_again = Ok false /\
  status_of (snd demo_cancel_again) demo_oid = Some CANCELLED /\
  saved_status_of (snd demo_cancel_again) demo_oid = Some PLACED.
Proof. repeat split; vm_compute; reflexivity. Qed.

Lemma deliver_twice_witness :
  exists st2,
    update_order_status 2000 demo_oid DELIVERED (Some "A1") demo_placed
    = (Ok true, st2) /\
    (exists g2,
        Dict.get (delivery_agents st2) "A1" = Some 2%nat /\
        agent_at st2 2 = Some g2 /\
        available g2 = true /\ current_order g2 = None /\
        completed_deliveries g2 = [demo_oid]) /\
    (forall now2,
        fst (update_order_status now2 demo_oid DELIVERED (Some "A1") st2)
        = Ok false) /\
    (forall nows,
        Forall (eq (Ok false))
          (fst (repeat_update_status nows demo_oid DELIVERED (Some "A1") st2))
        /\
        exists a3 g3,
          Dict.get
            (delivery_agents
               (snd (repeat_update_status nows demo_oid DELIVERED
                       (Some "A1") st2)))
            "A1" = Some a3 /\
          agent_at
            (snd (repeat_update_status nows demo_oid DELIVERED
                    (Some "A1") st2)) a3
          = Some g3 /\
          occurrences demo_oid (completed_deliveries g3) = 1%nat).
Proof.
  apply (@deliver_twice Z 2000 demo_placed demo_oid "A1" (Some "A1")
           (mkOrder demo_oid "C1" "R1" [mkOrderItem 2 2] DELIVERY PLACED
              (Some "A1") 1000 900001000 (EstimateAt 1800001000))
           2%nat
           (mkAgent "A1" "Ann" "ann@example.com" false (Some demo_oid) []
              None)).
  - vm_compute; reflexivity.
  - vm_compute; reflexivity.
  - reflexivity.
  - discriminate.
  - reflexivity.
  - reflexivity.
  - reflexivity.
  - vm_compute; reflexivity.
  - vm_compute; reflexivity.
  - reflexivity.
  - reflexivity.
  - vm_compute. repeat constructor; simpl; intuition discriminate.
  - vm_compute. repeat constructor; simpl; intuition discriminate.
  - vm_compute; reflexivity.
  - vm_compute; reflexivity.
Defined.

(** The first order of the concrete store, a delivery order with agent
    [A1] on it, is cancelled and [A1] gets a second delivery order.  The
    first [update_order_status] that marks the first order as delivered
    returns [True] and appends its id to the completed list of [A1], but
    [A1] is left with the second order as its current order, not with
    none; the second such call returns [False]. *)
Lemma delivered_agent_keeps_other_order :
  option_map order_type (Dict.get (orders demo_second_placed) demo_oid)
  = Some DELIVERY /\
  option_map delivery_agent_id
    (Dict.get (orders demo_second_placed) demo_oid)
  = Some (Some "A1") /\
  option_map current_order (agent_named demo_second_placed "A1")
  = Some (Some demo_oid2) /\
  fst demo_stale_delivery = Ok true /\
  option_map available (agent_named (snd demo_stale_delivery) "A1")
  = Some true /\
  option_map current_order (agent_named (snd demo_stale_delivery) "A1")
  = Some (Some demo_oid2) /\
  option_map completed_deliveries
    (agent_named (snd demo_stale_delivery) "A1")
  = Some [demo_oid] /\
  fst (update_order_status 5000 demo_oid DELIVERED None
         (snd demo_stale_delivery))
  = Ok false.
Proof. repeat split; vm_compute; reflexivity. Qed.
